(** * A shallow embedding of [model.py]: the convolutional VAE with a
      perceptual loss, its sampling layer, its losses and its train and
      evaluation steps.

    Numbers are idealised: every float of the program is a real number, so
    rounding, overflow and NaN are outside the model.  Tensors are nested
    lists in row-major order.  The Keras layers, the pretrained VGG16 trunk,
    automatic differentiation and the optimizer are library code; they enter
    as the fields of the record [Keras], and the general theorems hold for
    every such record.  Elementwise operations are modelled on operands of
    equal shape, the only ones on which the program uses them. *)

From Stdlib Require Import String Bool ZArith Reals Lra Lia List.
Import ListNotations.
Open Scope R_scope.

Set Implicit Arguments.

(** ** Tensors *)

Module Tensor.

Abbreviation Vec := (list R).
(** rank 2, [(batch, dim)] *)
Abbreviation Mat := (list (list R)).
(** rank 3, [(height, width, channels)] *)
Abbreviation Image := (list (list (list R))).
(** rank 4, [(batch, height, width, channels)] *)
Abbreviation Batch := (list (list (list (list R)))).

(** Elementwise binary operations are used by the program on operands of
    equal shape only; on such operands [zip_with] is TensorFlow's
    elementwise operation. *)
Fixpoint zip_with {A B C : Type} (f : A -> B -> C)
         (xs : list A) (ys : list B) : list C :=
  match xs, ys with
  | x :: xs', y :: ys' => f x y :: zip_with f xs' ys'
  | _, _ => []
  end.

Definition mat_map (f : R -> R) (m : Mat) : Mat := map (map f) m.
Definition mat_zip (f : R -> R -> R) (a b : Mat) : Mat :=
  zip_with (zip_with f) a b.

(** [tf.shape(t)[0]] and [tf.shape(t)[1]] of a rank-2 tensor. *)
Definition shape0 (m : Mat) : nat := length m.
Definition shape1 (m : Mat) : nat :=
  match m with [] => 0%nat | r :: _ => length r end.

Definition has_shape (B D : nat) (m : Mat) : Prop :=
  length m = B /\ Forall (fun r => length r = D) m.

(** [tf.reduce_sum] and [tf.reduce_mean] over the elements of a rank-1
    tensor. *)
Definition reduce_sum (v : Vec) : R := fold_right Rplus 0 v.
Definition reduce_mean (v : Vec) : R := reduce_sum v / INR (length v).

(** [tf.reduce_sum(t, axis=1)] on rank 2. *)
Definition reduce_sum_axis1 (m : Mat) : Vec := map reduce_sum m.
(** [tf.reduce_sum(t)] on rank 2: no axis, every element is added. *)
Definition reduce_sum_all (m : Mat) : R := reduce_sum (map reduce_sum m).
(** [tf.reduce_sum(t, axis=(1, 2))] on rank 3 [(batch, height, width)]. *)
Definition reduce_sum_axis12 (t : list Mat) : Vec := map reduce_sum_all t.

(** A rank-0 tensor has exactly one element; this is the list of the
    elements of a scalar, as [tf.reduce_mean] sees it. *)
Definition scalar (x : R) : Vec := [x].

(** [tf.math.add_n] on scalars. *)
Definition add_n (xs : list R) : R := fold_right Rplus 0 xs.

(** [keras.layers.Flatten]: every example becomes one row. *)
Definition Flatten (b : Batch) : Mat :=
  map (fun img => concat (concat img)) b.

End Tensor.
Import Tensor.

(** ** The random source

    [tf.keras.backend.random_normal] consumes the global generator.  The
    generator is the stream of the standard-normal values it is still going
    to return. *)

Module Rng.

Definition t := nat -> R.

Definition advance (n : nat) (g : t) : t := fun k => g (k + n)%nat.

(** The next [batch * dim] values, laid out row by row. *)
Definition take_mat (batch dim : nat) (g : t) : Mat :=
  map (fun i => map (fun j => g (i * dim + j)%nat) (seq 0 dim)) (seq 0 batch).

End Rng.

(** ** Tensors with a dtype

    Inside the sampling layer the dtype of a tensor matters: TensorFlow
    refuses a binary operation on two tensors of different dtypes.  The dtype
    is a tag; the values stay real numbers. *)

Inductive DType : Type := float16 | float32.

Definition dtype_eqb (a b : DType) : bool :=
  match a, b with
  | float16, float16 | float32, float32 => true
  | _, _ => false
  end.

Record TTensor : Type := mkT { dtype : DType; values : Mat }.

Module tf.

(** [c * t] with a Python float [c]: the result has the dtype of [t]. *)
Definition scale (c : R) (t : TTensor) : TTensor :=
  mkT (dtype t) (mat_map (Rmult c) (values t)).

Definition exp (t : TTensor) : TTensor :=
  mkT (dtype t) (mat_map Rtrigo_def.exp (values t)).

Definition cast (t : TTensor) (d : DType) : TTensor := mkT d (values t).

(** [a * b] and [a + b]: [None] is the dtype-mismatch error. *)
Definition mul (a b : TTensor) : option TTensor :=
  if dtype_eqb (dtype a) (dtype b)
  then Some (mkT (dtype a) (mat_zip Rmult (values a) (values b)))
  else None.

Definition add (a b : TTensor) : option TTensor :=
  if dtype_eqb (dtype a) (dtype b)
  then Some (mkT (dtype a) (mat_zip Rplus (values a) (values b)))
  else None.

(** [tf.keras.backend.random_normal(shape=(batch, dim))]: mean 0, standard
    deviation 1, dtype [floatx()], which is float32. *)
Definition random_normal (shape : nat * nat) (g : Rng.t) : TTensor * Rng.t :=
  let '(batch, dim) := shape in
  (mkT float32 (Rng.take_mat batch dim g), Rng.advance (batch * dim) g).

End tf.

(** ** [class Sampling] *)

Module Sampling.

(** [a = tf.exp(0.5 * z_log_var)] *)
Definition a (z_log_var : TTensor) : TTensor :=
  tf.exp (tf.scale 0.5 z_log_var).

(** [epsilon = tf.cast(random_normal(shape=(batch, dim)), dtype=a.dtype)] *)
Definition epsilon (inputs : TTensor * TTensor) (g : Rng.t)
  : TTensor * Rng.t :=
  let '(z_mean, z_log_var) := inputs in
  let batch := shape0 (values z_mean) in
  let dim := shape1 (values z_mean) in
  let '(noise, g') := tf.random_normal (batch, dim) g in
  (tf.cast noise (dtype (a z_log_var)), g').

(** [return z_mean + a * epsilon] *)
Definition call (inputs : TTensor * TTensor) (g : Rng.t)
  : option (TTensor * Rng.t) :=
  let '(z_mean, z_log_var) := inputs in
  let '(eps, g') := epsilon inputs g in
  match tf.mul (a z_log_var) eps with
  | None => None
  | Some a_eps =>
      match tf.add z_mean a_eps with
      | None => None
      | Some z => Some (z, g')
      end
  end.

End Sampling.

(** ** [keras.metrics.Mean]

    The metric keeps the sum of the values it was given and their number;
    its result is [div_no_nan(total, count)].  A scalar update adds one to
    the count. *)

Module Mean.

Record t : Type := mk { total : R; count : nat }.

Definition new : t := mk 0 0.

Definition update_state (value : R) (m : t) : t :=
  mk (total m + value) (S (count m)).

Definition result (m : t) : R :=
  match count m with
  | O => 0
  | S _ => total m / INR (count m)
  end.

(** Consecutive updates, oldest first. *)
Definition updates (values : list R) (m : t) : t :=
  fold_left (fun m v => update_state v m) values m.

End Mean.

(** ** [config.Config]

    The configuration module is not part of the source file; its fields are
    the ones [model.py] reads. *)

Module Config.

Record t : Type := mk {
  latent_dim : Z;
  input_shape : list Z;
  filters : list Z;
  kernels : Z;
  strides : Z;
  last_conv_dim : Z;
  b_norm : R
}.

End Config.

(** ** The library under the model

    Layers are functions of the trainable variables and of their input; the
    natural number tells the instances of one layer class apart, in the order
    in which the constructor creates them. *)

Record Keras : Type := mkKeras {
  Weights : Type;
  Grads : Type;
  Optimizer : Type;
  Conv2D : Z -> Z -> Z -> nat -> Weights -> Batch -> Batch;
  Conv2DTranspose : Z -> Z -> Z -> nat -> Weights -> Batch -> Batch;
  BatchNormalization : nat -> Weights -> Batch -> Batch;
  Dense : Z -> string -> Weights -> Mat -> Mat;
  (** [VGG16(include_top=False).layers[i].output] as a function of the
      network's input; its weights are fixed *)
  VGG16_layer : nat -> Batch -> Batch;
  (** [tape.gradient(loss, variables, unconnected_gradients=ZERO)] of a loss
      recorded as a function of the variables, at their current value *)
  gradient : (Weights -> R) -> Weights -> Grads;
  (** [optimizer.apply_gradients(zip(grads, variables))] *)
  apply_gradients : Optimizer -> Grads -> Weights -> Optimizer * Weights
}.

(** Scalar activations. *)
Definition leaky_relu (x : R) : R := Rmax (0.2 * x) x.
Definition relu (x : R) : R := Rmax 0 x.
Definition sigmoid (x : R) : R := 1 / (1 + exp (- x)).

Definition batch_map (f : R -> R) (b : Batch) : Batch :=
  map (map (map (map f))) b.

(** [keras.layers.Reshape((h, w, ch))] of one row. *)
Fixpoint chunks {A : Type} (n count : nat) (xs : list A) : list (list A) :=
  match count with
  | O => []
  | S k => firstn n xs :: chunks n k (skipn n xs)
  end.

Definition Reshape (h w ch : nat) (m : Mat) : Batch :=
  map (fun row => chunks w h (chunks ch (h * w) row)) m.

(** [keras.losses.binary_crossentropy(y_true, y_pred)]: the prediction is
    clipped to [[epsilon, 1 - epsilon]] with [epsilon = 1e-7], the
    elementwise loss is
    [-(t * log(p + epsilon) + (1 - t) * log(1 - p + epsilon))],
    and the last axis is averaged. *)
Definition keras_epsilon : R := 1e-7.

(** [tf.clip_by_value(x, lo, hi)] *)
Definition clip (lo hi x : R) : R := Rmin hi (Rmax lo x).

Definition bce_elem (t p : R) : R :=
  let p' := clip keras_epsilon (1 - keras_epsilon) p in
  - (t * ln (p' + keras_epsilon) + (1 - t) * ln (1 - p' + keras_epsilon)).

Definition binary_crossentropy (y_true y_pred : Batch) : list Mat :=
  zip_with (zip_with (zip_with
    (fun ts ps => reduce_mean (zip_with bce_elem ts ps)))) y_true y_pred.

(** ** [class ConvolutionalVAE] *)

Module ConvolutionalVAE.
Section Model.

Variable K : Keras.
(** [from config import Config as c] *)
Variable c : Config.t.

(** The attributes of [self] that the source reads or writes.  The
    optimizer is attached by [compile]; until then it is [None]. *)
Record Model : Type := mkModel {
  code_dim_size : Z;
  target_image_dims : list Z;
  b_norm : R;
  trainable_variables : Weights K;
  optimizer : option (Optimizer K);
  total_loss_tracker : Mean.t;
  reconstruction_loss_tracker : Mean.t;
  kl_loss_tracker : Mean.t;
  perception_loss_tracker : Mean.t
}.

(** Everything a step can read or write: the model and the generator. *)
Record World : Type := mkWorld { self : Model; rng : Rng.t }.

(** Computations that read and write the world and may raise. *)
Definition M (A : Type) : Type := World -> option (A * World).

Definition ret {A : Type} (x : A) : M A := fun w => Some (x, w).

Definition bind {A B : Type} (m : M A) (k : A -> M B) : M B :=
  fun w => match m w with
           | None => None
           | Some (x, w') => k x w'
           end.

Definition raise {A : Type} : M A := fun _ => None.

Definition get_self : M Model := fun w => Some (self w, w).

Definition put_self (s : Model) : M unit :=
  fun w => Some (tt, mkWorld s (rng w)).

Notation "x <- m ;; k" := (bind m (fun x => k))
  (at level 61, m at next level, right associativity).
Notation "' p <- m ;; k" := (bind m (fun x => let p := x in k))
  (at level 61, p pattern, m at next level, right associativity).

(** [math.prod] *)
Definition prod (dims : list Z) : Z := fold_right Z.mul 1%Z dims.

(** [enumerate] *)
Definition enumerate {A : Type} (l : list A) : list (nat * A) :=
  combine (seq 0 (length l)) l.

(** [l[-1]]: [None] is the IndexError on an empty sequence. *)
Definition last_opt {A : Type} (l : list A) : option A :=
  match rev l with [] => None | x :: _ => Some x end.

(** *** The constructor

    It raises when the division by [math.prod] is a division by zero, when
    the filter list is empty ([x] is unbound after the loop and
    [c.filters[-1]] is out of range) and when the input shape is empty.
    [variables] are the initial values of the weights that Keras creates. *)
Definition __init__ (gamma : R) (variables : Weights K) : option Model :=
  let code_dim_size := Config.latent_dim c in
  let target_image_dims := Config.input_shape c in
  if (prod target_image_dims =? 0)%Z then None else
  let b_norm := gamma * Config.b_norm c * IZR code_dim_size
                / IZR (prod target_image_dims) in
  match last_opt (Config.filters c), last_opt target_image_dims with
  | Some _, Some _ =>
      Some (mkModel code_dim_size target_image_dims b_norm
                    variables None Mean.new Mean.new Mean.new Mean.new)
  | _, _ => None
  end.


(** The [i]-th block of the encoder, [i] being the position in the loop
    that creates it. *)
Definition _conv_block (i : nat) (w : Weights K) (input : Batch) (filter : Z)
  : Batch :=
  let conv := Conv2D K filter (Config.kernels c) (Config.strides c)
                     i w input in
  let conv := BatchNormalization K i w conv in
  batch_map leaky_relu conv.

(** The batch normalisations of the decoder come after the encoder's. *)
Definition _deconv_block (w : Weights K) (input : Batch) (filter : Z)
           (i : nat) : Batch :=
  let deconv := Conv2DTranspose K filter (Config.kernels c)
                                (Config.strides c) i w input in
  let deconv := BatchNormalization K (length (Config.filters c) + i) w
                                   deconv in
  batch_map leaky_relu deconv.

(** *** [self.encoder], lines 32 to 45, under the default float32 policy *)

(** Lines 32 to 39: the convolutional blocks, then [Flatten]. *)
Definition encoder_features (s : Model) (e_input : Batch) : Mat :=
  let w := trainable_variables s in
  let x := fold_left (fun x '(i, filter) => _conv_block i w x filter)
                     (enumerate (Config.filters c)) e_input in
  Flatten x.

(** Line 40. *)
Definition z_mean_dense (s : Model) (e_input : Batch) : TTensor :=
  mkT float32 (Dense K (code_dim_size s) "z_mean" (trainable_variables s)
                     (encoder_features s e_input)).

(** Line 42. *)
Definition z_logvar_dense (s : Model) (e_input : Batch) : TTensor :=
  mkT float32 (Dense K (code_dim_size s) "z_logvar" (trainable_variables s)
                     (encoder_features s e_input)).

(** A layer that draws from the generator, run in the world. *)
Definition with_rng {A : Type} (f : Rng.t -> option (A * Rng.t)) : M A :=
  fun world =>
    match f (rng world) with
    | None => None
    | Some (x, g') => Some (x, mkWorld (self world) g')
    end.

(** Lines 44 and 45: the sample, and the outputs
    [[z_mean_dense, z_mean_dense, z]] of the encoder model. *)
Definition encoder (e_input : Batch) : M (TTensor * TTensor * TTensor) :=
  s <- get_self ;;
  z <- with_rng (Sampling.call (z_mean_dense s e_input,
                                z_logvar_dense s e_input)) ;;
  ret (z_mean_dense s e_input, z_mean_dense s e_input, z).

(** [self.decoder], lines 48 to 57. *)
Definition decoder (s : Model) (latent_input : TTensor) : Batch :=
  let w := trainable_variables s in
  let last_filter := last (Config.filters c) 0%Z in
  let lcd := Config.last_conv_dim c in
  let d := mat_map relu
             (Dense K (lcd * lcd * last_filter) "dense" w
                    (values latent_input)) in
  let d := Reshape (Z.to_nat lcd) (Z.to_nat lcd) (Z.to_nat last_filter) d in
  let d := fold_left (fun d '(i, filter) => _deconv_block w d filter i)
                     (enumerate (rev (Config.filters c))) d in
  let decoder_output :=
    Conv2DTranspose K (last (target_image_dims s) 0%Z) (Config.kernels c) 1
                    (length (Config.filters c)) w d in
  batch_map sigmoid decoder_output.

(** Shape inference of Keras with [padding='same']: a convolution of stride
    [s] takes a spatial dimension [n] to the ceiling of [n / s], a transposed
    convolution takes it to [n * s]. *)
Definition conv_same (s n : Z) : Z := ((n + s - 1) / s)%Z.
Definition deconv_same (s n : Z) : Z := (n * s)%Z.

(** The shape [(height, width, channels)] of the last feature map of the
    encoder, and of the output of the decoder. *)
Definition encoder_conv_shape : list Z :=
  let down := fun n =>
    fold_left (fun n _ => conv_same (Config.strides c) n)
              (Config.filters c) n in
  match Config.input_shape c with
  | [h; w; _] => [down h; down w; last (Config.filters c) 0%Z]
  | _ => []
  end.

Definition decoder_output_shape : list Z :=
  let n := fold_left (fun n _ => deconv_same (Config.strides c) n)
                     (rev (Config.filters c)) (Config.last_conv_dim c) in
  [n; n; last (Config.input_shape c) 0%Z].

(** [self.vgg_model], lines 61 to 64. *)
Definition vgg_conv_block_ixs : list nat := [1; 4; 7; 11; 15]%nat.

Definition vgg_model (x : Batch) : list Batch :=
  map (fun i => VGG16_layer K i x) vgg_conv_block_ixs.

(** The property [metrics], lines 85 to 92. *)
Definition metrics (s : Model) : list Mean.t :=
  [total_loss_tracker s; reconstruction_loss_tracker s;
   kl_loss_tracker s; perception_loss_tracker s].

(** [call], lines 94 to 97. *)
Definition call (inputs : Batch) : M Batch :=
  '(z_mean, z_log_var, z) <- encoder inputs ;;
  s <- get_self ;;
  let reconstruction := decoder s z in
  ret reconstruction.

(** [_total_loss_fn], lines 99 to 101. *)
Definition _total_loss_fn (s : Model)
           (reconstruction_loss kl_loss perception_loss : R) : R :=
  let reconstruction_loss := 0.5 * reconstruction_loss in
  reconstruction_loss + 0.5 * perception_loss + kl_loss.

(** *** The three losses

    Lines 108 to 118 of [test_step]; lines 136 to 146 of [train_step] are
    the same text. *)

(** Lines 108 to 114.  [tf.reduce_sum] has no axis here, so its result is
    a scalar, and [tf.reduce_mean] is taken of that scalar. *)
Definition perception_loss
           (feature_maps_data feature_maps_reconstruction : list Batch) : R :=
  let feature_losses :=
    map (fun i =>
           let feature_map_data := Flatten (nth i feature_maps_data []) in
           let feature_map_reconstruction :=
             Flatten (nth i feature_maps_reconstruction []) in
           reduce_mean (scalar (reduce_sum_all
             (mat_map (fun x => x ^ 2)
                (mat_zip Rminus feature_map_data
                         feature_map_reconstruction)))))
        (seq 0 (length feature_maps_data)) in
  add_n feature_losses.

(** Line 116. *)
Definition reconstruction_loss (data reconstruction : Batch) : R :=
  reduce_mean (reduce_sum_axis12 (binary_crossentropy data reconstruction)).

(** Lines 117 and 118. *)
Definition kl_loss (z_mean z_log_var : Mat) : R :=
  let kl_loss :=
    mat_map (Rmult (-0.5))
      (mat_zip Rminus
         (mat_zip Rminus (mat_map (Rplus 1) z_log_var)
                  (mat_map (fun x => x * x) z_mean))
         (mat_map exp z_log_var)) in
  reduce_mean (reduce_sum_axis1 kl_loss).

(** The dictionaries that the steps return, in the order of their keys. *)
Definition Logs : Type := list (string * R).

Fixpoint lookup (key : string) (d : Logs) : option R :=
  match d with
  | [] => None
  | (k, v) :: d' => if String.eqb k key then Some v else lookup key d'
  end.

Definition keys (d : Logs) : list string := map fst d.

(** *** [test_step], lines 103 to 126 *)
Definition test_step (data : Batch) : M Logs :=
  '(z_mean, z_log_var, z) <- encoder data ;;
  s <- get_self ;;
  let reconstruction := decoder s z in
  let feature_maps_data := vgg_model data in
  let feature_maps_reconstruction := vgg_model reconstruction in
  let perception_loss :=
    perception_loss feature_maps_data feature_maps_reconstruction in
  let reconstruction_loss := reconstruction_loss data reconstruction in
  let kl_loss := kl_loss (values z_mean) (values z_log_var) in
  let total_loss :=
    _total_loss_fn s reconstruction_loss kl_loss perception_loss in
  ret [("loss", total_loss);
       ("reconstruction_loss", reconstruction_loss);
       ("kl_loss", kl_loss);
       ("perception_loss", perception_loss)]%string.

(** *** [train_step], lines 128 to 162 *)

(** The block under [with tf.GradientTape() as tape], lines 129 to 148.
    It leaves [total_loss], [reconstruction_loss], [kl_loss] and
    [perception_loss]. *)
Definition train_step_tape (data : Batch) : M (R * R * R * R) :=
  '(z_mean, z_log_var, z) <- encoder data ;;
  s <- get_self ;;
  let reconstruction := decoder s z in
  let feature_maps_data := vgg_model data in
  let feature_maps_reconstruction := vgg_model reconstruction in
  let perception_loss :=
    perception_loss feature_maps_data feature_maps_reconstruction in
  let reconstruction_loss := reconstruction_loss data reconstruction in
  let kl_loss := kl_loss (values z_mean) (values z_log_var) in
  let total_loss :=
    _total_loss_fn s reconstruction_loss kl_loss perception_loss in
  ret (total_loss, reconstruction_loss, kl_loss, perception_loss).

Definition with_variables (w : Weights K) (s : Model) : Model :=
  mkModel (code_dim_size s) (target_image_dims s) (b_norm s)
          w (optimizer s)
          (total_loss_tracker s) (reconstruction_loss_tracker s)
          (kl_loss_tracker s) (perception_loss_tracker s).

(** What the tape recorded: [total_loss] as a function of the trainable
    variables, for the batch and the random draw of this step. *)
Definition recorded_loss (data : Batch) (world : World) (w : Weights K) : R :=
  match train_step_tape data (mkWorld (with_variables w (self world))
                                      (rng world)) with
  | Some ((total_loss, _, _, _), _) => total_loss
  | None => 0
  end.

Definition train_step (data : Batch) : M Logs :=
  fun world =>
    ('(total_loss, reconstruction_loss, kl_loss, perception_loss)
       <- train_step_tape data ;;
     s <- get_self ;;
     let grads := gradient K (recorded_loss data world)
                           (trainable_variables s) in
     match optimizer s with
     | None => raise
     | Some opt =>
         let '(opt', variables') :=
           apply_gradients K opt grads (trainable_variables s) in
         let s' :=
           mkModel (code_dim_size s) (target_image_dims s) (b_norm s)
             variables' (Some opt')
             (Mean.update_state total_loss (total_loss_tracker s))
             (Mean.update_state reconstruction_loss
                                (reconstruction_loss_tracker s))
             (Mean.update_state kl_loss (kl_loss_tracker s))
             (Mean.update_state perception_loss
                                (perception_loss_tracker s)) in
         _ <- put_self s' ;;
         ret [("loss", Mean.result (total_loss_tracker s'));
              ("reconstruction_loss",
               Mean.result (reconstruction_loss_tracker s'));
              ("kl_loss", Mean.result (kl_loss_tracker s'));
              ("perception_loss",
               Mean.result (perception_loss_tracker s'))]%string
     end) world.

(** The model with other metric accumulators. *)
Definition with_metrics (m_total m_reconstruction m_kl m_perception : Mean.t)
           (s : Model) : Model :=
  mkModel (code_dim_size s) (target_image_dims s) (b_norm s)
          (trainable_variables s) (optimizer s)
          m_total m_reconstruction m_kl m_perception.

(** [reset_states] of the four metrics, as [fit] and [evaluate] do at the
    start of an epoch. *)
Definition reset_metrics (s : Model) : Model :=
  with_metrics Mean.new Mean.new Mean.new Mean.new s.

(** Consecutive train steps, one per batch; the logs of every step. *)
Fixpoint train_steps (batches : list Batch) : M (list Logs) :=
  match batches with
  | [] => ret []
  | data :: rest =>
      logs <- train_step data ;;
      more <- train_steps rest ;;
      ret (logs :: more)
  end.

(** The values of [total_loss], [reconstruction_loss], [kl_loss] and
    [perception_loss] inside consecutive train steps, one per batch. *)
Fixpoint train_trace (batches : list Batch) (world : World)
  : list (R * R * R * R) :=
  match batches with
  | [] => []
  | data :: rest =>
      match train_step_tape data world, train_step data world with
      | Some (v, _), Some (_, world') => v :: train_trace rest world'
      | _, _ => []
      end
  end.

(** *** The forward pass as a function

    What lines 104 to 119 compute from the model [s], the batch and the
    noise that the sampling layer draws. *)

Definition noise_of (s : Model) (data : Batch) (g : Rng.t) : Mat :=
  Rng.take_mat (shape0 (values (z_mean_dense s data)))
               (shape1 (values (z_mean_dense s data))) g.

Definition rng_after (s : Model) (data : Batch) (g : Rng.t) : Rng.t :=
  Rng.advance (shape0 (values (z_mean_dense s data))
               * shape1 (values (z_mean_dense s data))) g.

Definition latent_of (s : Model) (data : Batch) (noise : Mat) : TTensor :=
  mkT float32
      (mat_zip Rplus (values (z_mean_dense s data))
         (mat_zip Rmult
            (mat_map exp (mat_map (Rmult 0.5) (values (z_logvar_dense s data))))
            noise)).

Definition reconstruction_of (s : Model) (data : Batch) (noise : Mat) : Batch :=
  decoder s (latent_of s data noise).

Definition reconstruction_loss_of (s : Model) (data : Batch) (noise : Mat) : R :=
  reconstruction_loss data (reconstruction_of s data noise).

Definition kl_loss_of (s : Model) (data : Batch) : R :=
  kl_loss (values (z_mean_dense s data)) (values (z_mean_dense s data)).

Definition perception_loss_of (s : Model) (data : Batch) (noise : Mat) : R :=
  perception_loss (vgg_model data) (vgg_model (reconstruction_of s data noise)).

Definition total_loss_of (s : Model) (data : Batch) (noise : Mat) : R :=
  _total_loss_fn s (reconstruction_loss_of s data noise) (kl_loss_of s data)
                 (perception_loss_of s data noise).

Definition losses_of (s : Model) (data : Batch) (noise : Mat)
  : R * R * R * R :=
  (total_loss_of s data noise, reconstruction_loss_of s data noise,
   kl_loss_of s data, perception_loss_of s data noise).

(** The components of the four values. *)
Definition v_total (v : R * R * R * R) : R :=
  let '(total_loss, _, _, _) := v in total_loss.
Definition v_reconstruction (v : R * R * R * R) : R :=
  let '(_, reconstruction_loss, _, _) := v in reconstruction_loss.
Definition v_kl (v : R * R * R * R) : R :=
  let '(_, _, kl_loss, _) := v in kl_loss.
Definition v_perception (v : R * R * R * R) : R :=
  let '(_, _, _, perception_loss) := v in perception_loss.

(** The dictionary of both steps, from the four values. *)
Definition logs_of (v : R * R * R * R) : Logs :=
  let '(total_loss, reconstruction_loss, kl_loss, perception_loss) := v in
  [("loss", total_loss);
   ("reconstruction_loss", reconstruction_loss);
   ("kl_loss", kl_loss);
   ("perception_loss", perception_loss)]%string.

(** The model after a train step that computed the losses [v]. *)
Definition trained (s : Model) (opt : Optimizer K) (data : Batch)
           (world : World) (v : R * R * R * R) : Model :=
  let '(total_loss, reconstruction_loss, kl_loss, perception_loss) := v in
  let grads := gradient K (recorded_loss data world) (trainable_variables s) in
  let '(opt', variables') :=
    apply_gradients K opt grads (trainable_variables s) in
  mkModel (code_dim_size s) (target_image_dims s) (b_norm s)
          variables' (Some opt')
          (Mean.update_state total_loss (total_loss_tracker s))
          (Mean.update_state reconstruction_loss
                             (reconstruction_loss_tracker s))
          (Mean.update_state kl_loss (kl_loss_tracker s))
          (Mean.update_state perception_loss (perception_loss_tracker s)).

(** The results of the four metrics of a model. *)
Definition metric_results (s : Model) : R * R * R * R :=
  (Mean.result (total_loss_tracker s),
   Mean.result (reconstruction_loss_tracker s),
   Mean.result (kl_loss_tracker s),
   Mean.result (perception_loss_tracker s)).

(** The losses that a step computes in a world. *)
Definition step_losses (data : Batch) (world : World) : R * R * R * R :=
  losses_of (self world) data (noise_of (self world) data (rng world)).

(** The metrics of a model whose accumulators were given [vs], oldest
    first, after the accumulators of [s]. *)
Definition metrics_after (s : Model) (vs : list (R * R * R * R))
  : R * R * R * R :=
  (Mean.result (Mean.updates (map v_total vs) (total_loss_tracker s)),
   Mean.result (Mean.updates (map v_reconstruction vs)
                             (reconstruction_loss_tracker s)),
   Mean.result (Mean.updates (map v_kl vs) (kl_loss_tracker s)),
   Mean.result (Mean.updates (map v_perception vs)
                             (perception_loss_tracker s))).

(** The accumulators of [s'] are those of [s] after the values [vs]. *)
Definition trackers_after (s s' : Model) (vs : list (R * R * R * R)) : Prop :=
  total_loss_tracker s'
  = Mean.updates (map v_total vs) (total_loss_tracker s) /\
  reconstruction_loss_tracker s'
  = Mean.updates (map v_reconstruction vs) (reconstruction_loss_tracker s) /\
  kl_loss_tracker s'
  = Mean.updates (map v_kl vs) (kl_loss_tracker s) /\
  perception_loss_tracker s'
  = Mean.updates (map v_perception vs) (perception_loss_tracker s).

(** The unweighted averages of the four values over a list of steps. *)
Definition averages (vs : list (R * R * R * R)) : R * R * R * R :=
  (reduce_mean (map v_total vs), reduce_mean (map v_reconstruction vs),
   reduce_mean (map v_kl vs), reduce_mean (map v_perception vs)).

End Model.
End ConvolutionalVAE.

(** ** The formulas of the specification, to compare the code with *)

Module Spec.

(** [f 0 + ... + f (n - 1)] *)
Fixpoint sum_n (n : nat) (f : nat -> R) : R :=
  match n with
  | O => 0
  | S k => sum_n k f + f k
  end.

Definition entry (m : Mat) (b d : nat) : R := nth d (nth b m []) 0.

(** The closed-form KL divergence of a batch of [B] diagonal Gaussians of
    dimension [D] from the standard normal: summed over the latent
    dimensions, averaged over the batch. *)
Definition kl_closed_form (B D : nat) (mean logvar : Mat) : R :=
  sum_n B (fun b =>
    sum_n D (fun d =>
      -0.5 * (1 + entry logvar b d - (entry mean b d) ^ 2
              - exp (entry logvar b d))))
  / INR B.

(** The contribution of one latent component when the log-variance slot
    holds the mean [m]. *)
Definition kl_elem (m : R) : R := -0.5 * (1 + m - m ^ 2 - exp m).

(** The perceptual loss as the specification words it: per pair of feature
    maps the squared differences are summed per example and averaged over
    the batch, and the per-scale results are added. *)
Definition perceptual_batch_mean
           (feature_maps_data feature_maps_reconstruction : list Batch) : R :=
  add_n (zip_with
           (fun fd fr =>
              reduce_mean
                (zip_with (fun x y =>
                             reduce_sum (zip_with (fun a b => (a - b) ^ 2) x y))
                          (Flatten fd) (Flatten fr)))
           feature_maps_data feature_maps_reconstruction).

(** The perceptual loss with every squared difference of the batch added and
    no division. *)
Definition perceptual_batch_sum
           (feature_maps_data feature_maps_reconstruction : list Batch) : R :=
  add_n (zip_with
           (fun fd fr =>
              reduce_sum
                (zip_with (fun x y =>
                             reduce_sum (zip_with (fun a b => (a - b) ^ 2) x y))
                          (Flatten fd) (Flatten fr)))
           feature_maps_data feature_maps_reconstruction).

(** The normalized beta of the constructor, line 30. *)
Definition beta_normalized (gamma : R) (c : Config.t) : R :=
  gamma * Config.b_norm c * IZR (Config.latent_dim c)
  / IZR (fold_right Z.mul 1%Z (Config.input_shape c)).

(** The total loss with the normalized beta folded into the KL term. *)
Definition total_loss_with_beta (beta : R)
           (reconstruction_loss kl_loss perception_loss : R) : R :=
  0.5 * reconstruction_loss + 0.5 * perception_loss + beta * kl_loss.



(** The configuration of the specification's construction test. *)
Definition fixed_config : Config.t :=
  Config.mk 8 [32; 32; 1]%Z [16; 32]%Z 3 2 8 1.0.

(** A batch of [B] rows of [D] zeros. *)
Definition zeros (B D : nat) : Mat := repeat (repeat 0 D) B.

End Spec.

(** ** A small instance of the library, for concrete runs

    Every layer is the identity, except the dense layer named [z_logvar],
    which adds one to every entry; the VGG16 layers return their input. *)

Module Toy.

Definition dense (units : Z) (name : string) (w : R) (x : Mat) : Mat :=
  if String.eqb name "z_logvar" then mat_map (Rplus 1) x else x.

Definition K : Keras :=
  @mkKeras R R unit
           (fun _ _ _ _ _ x => x)
           (fun _ _ _ _ _ x => x)
           (fun _ _ x => x)
           dense
           (fun _ x => x)
           (fun _ _ => 0)
           (fun opt g w => (tt, w - g)).

(** One filter, images of one pixel and one channel, one latent dimension. *)
Definition c : Config.t := Config.mk 1 [1; 1; 1]%Z [1]%Z 3 2 1 1.

Definition model : ConvolutionalVAE.Model K :=
  @ConvolutionalVAE.mkModel K 1 [1; 1; 1]%Z 1 (0 : Weights K) (Some tt)
    Mean.new Mean.new Mean.new Mean.new.

(** One image whose only pixel is [0]. *)
Definition data0 : Batch := [[[[0]]]].

(** Two images whose only pixel is [0]. *)
Definition data2 : Batch := [[[[0]]]; [[[0]]]].

(** A generator that returns [0] for ever, and one that returns [1]. *)
Definition g0 : Rng.t := fun _ => 0.
Definition g1 : Rng.t := fun _ => 1.


(** A float16 mean and log-variance of shape [(1, 2)]. *)
Definition zm16 : TTensor := mkT float16 [[1; 2]].
Definition zl16 : TTensor := mkT float16 [[0; 0]].

End Toy.

(** ** Shapes and relations used by further properties *)

(** Two matrices whose rows have pairwise the same length (and which have
    the same number of rows). *)
Definition same_shape (a b : Mat) : Prop :=
  Forall2 (fun x y : list R => length x = length y) a b.

(** The four values are related as [_total_loss_fn] relates them. *)
Definition combined (v : R * R * R * R) : Prop :=
  ConvolutionalVAE.v_total v
  = 0.5 * ConvolutionalVAE.v_reconstruction v
    + 0.5 * ConvolutionalVAE.v_perception v + ConvolutionalVAE.v_kl v.

(** * Proofs *)

Import ConvolutionalVAE.
Open Scope string_scope.

(** ** Lists and tensors *)

Lemma zip_with_length (A B C : Type) (f : A -> B -> C) (xs : list A) (ys : list B) :
  length (zip_with f xs ys) = Nat.min (length xs) (length ys).
Proof.
  revert ys; induction xs as [|x xs IH]; intros [|y ys]; simpl; auto.
Qed.

Lemma zip_with_nth (A B C : Type) (f : A -> B -> C) (xs : list A) (ys : list B)
      (i : nat) (da : A) (db : B) (dc : C) :
  (i < length xs)%nat -> (i < length ys)%nat ->
  nth i (zip_with f xs ys) dc = f (nth i xs da) (nth i ys db).
Proof.
  revert ys i; induction xs as [|x xs IH]; intros [|y ys] [|i]; simpl;
    try lia; auto.
  intros; apply IH; lia.
Qed.

Lemma map_seq_nth (A : Type) (f : nat -> A) (n i : nat) (d : A) :
  (i < n)%nat -> nth i (map f (seq 0 n)) d = f i.
Proof.
  intros Hi.
  rewrite (nth_indep _ d (f 0%nat)) by (rewrite length_map, length_seq; lia).
  rewrite (map_nth f (seq 0 n) 0%nat i), seq_nth; auto.
Qed.

Lemma has_shape_length (B D : nat) (m : Mat) : has_shape B D m -> length m = B.
Proof. intros [H _]; exact H. Qed.

Lemma has_shape_row (B D : nat) (m : Mat) (i : nat) :
  has_shape B D m -> (i < B)%nat -> length (nth i m []) = D.
Proof.
  intros [HB HD] Hi. rewrite Forall_forall in HD. apply HD, nth_In. lia.
Qed.

Lemma has_shape_shape1 (B D : nat) (m : Mat) :
  has_shape B D m -> (shape0 m * shape1 m = B * D)%nat.
Proof.
  intros [HB HD]. unfold shape0, shape1. destruct m as [|r m]; simpl in *.
  - subst B; reflexivity.
  - inversion HD; subst. reflexivity.
Qed.

Lemma has_shape_shape1_pos (B D : nat) (m : Mat) :
  has_shape B D m -> (0 < B)%nat -> shape1 m = D.
Proof.
  intros [HB HD] Hpos. destruct m as [|r m]; simpl in *; [lia|].
  inversion HD; auto.
Qed.

Lemma has_shape_intro (B D : nat) (m : Mat) :
  length m = B ->
  (forall i, (i < B)%nat -> length (nth i m []) = D) ->
  has_shape B D m.
Proof.
  intros HB Hrow; split; auto.
  apply Forall_forall. intros r Hr.
  destruct (In_nth _ _ [] Hr) as [i [Hi Hn]]. rewrite <- Hn. apply Hrow; lia.
Qed.

Lemma mat_zip_shape (f : R -> R -> R) (B D : nat) (a b : Mat) :
  has_shape B D a -> has_shape B D b -> has_shape B D (mat_zip f a b).
Proof.
  intros Ha Hb. unfold mat_zip. apply has_shape_intro.
  - rewrite zip_with_length, (has_shape_length Ha), (has_shape_length Hb). lia.
  - intros i Hi.
    rewrite (zip_with_nth _ _ _ [] [] []) by
      (rewrite ?(has_shape_length Ha), ?(has_shape_length Hb); lia).
    rewrite zip_with_length, (has_shape_row Ha Hi), (has_shape_row Hb Hi). lia.
Qed.

Lemma mat_map_shape (f : R -> R) (B D : nat) (a : Mat) :
  has_shape B D a -> has_shape B D (mat_map f a).
Proof.
  intros [HB HD]; split; unfold mat_map.
  - rewrite length_map; auto.
  - apply Forall_map. eapply Forall_impl; [|exact HD].
    intros r Hr; simpl. rewrite length_map; auto.
Qed.

Lemma mat_zip_entry (f : R -> R -> R) (B D : nat) (a b : Mat) (i j : nat) :
  has_shape B D a -> has_shape B D b -> (i < B)%nat -> (j < D)%nat ->
  Spec.entry (mat_zip f a b) i j = f (Spec.entry a i j) (Spec.entry b i j).
Proof.
  intros Ha Hb Hi Hj. unfold Spec.entry, mat_zip.
  rewrite (zip_with_nth _ _ _ [] [] []) by
      (rewrite ?(has_shape_length Ha), ?(has_shape_length Hb); lia).
  apply zip_with_nth; rewrite ?(has_shape_row Ha Hi), ?(has_shape_row Hb Hi); lia.
Qed.

Lemma mat_map_entry (f : R -> R) (B D : nat) (a : Mat) (i j : nat) :
  has_shape B D a -> (i < B)%nat -> (j < D)%nat ->
  Spec.entry (mat_map f a) i j = f (Spec.entry a i j).
Proof.
  intros Ha Hi Hj. unfold Spec.entry, mat_map.
  rewrite (nth_indep _ [] (map f [])) by (rewrite length_map, (has_shape_length Ha); lia).
  rewrite map_nth.
  rewrite (nth_indep _ 0 (f 0)) by (rewrite length_map, (has_shape_row Ha Hi); lia).
  apply map_nth.
Qed.

Lemma take_mat_shape (B D : nat) (g : Rng.t) : has_shape B D (Rng.take_mat B D g).
Proof.
  unfold Rng.take_mat; split.
  - rewrite length_map, length_seq; auto.
  - apply Forall_map, Forall_forall. intros i _. rewrite length_map, length_seq; auto.
Qed.

Lemma take_mat_entry (B D : nat) (g : Rng.t) (i j : nat) :
  (i < B)%nat -> (j < D)%nat ->
  Spec.entry (Rng.take_mat B D g) i j = g (i * D + j)%nat.
Proof.
  intros Hi Hj. unfold Spec.entry, Rng.take_mat.
  rewrite map_seq_nth by assumption. rewrite map_seq_nth by assumption. reflexivity.
Qed.

(** ** The sampling layer *)

Lemma dtype_eqb_refl (d : DType) : dtype_eqb d d = true.
Proof. destruct d; reflexivity. Qed.


(** The layer never fails on a dtype mismatch when its two inputs have one
    dtype, whatever that dtype is: the noise is cast to it. *)
Lemma Sampling_call_value (z_mean z_log_var : TTensor) (g : Rng.t) :
  dtype z_mean = dtype z_log_var ->
  Sampling.call (z_mean, z_log_var) g =
  Some (mkT (dtype z_mean)
            (mat_zip Rplus (values z_mean)
               (mat_zip Rmult (mat_map exp (mat_map (Rmult 0.5) (values z_log_var)))
                  (Rng.take_mat (shape0 (values z_mean)) (shape1 (values z_mean)) g))),
        Rng.advance (shape0 (values z_mean) * shape1 (values z_mean)) g).
Proof.
  intros Hd. unfold Sampling.call, Sampling.epsilon, tf.random_normal, tf.mul, tf.add.
  simpl. rewrite dtype_eqb_refl. simpl. rewrite Hd, dtype_eqb_refl. reflexivity.
Qed.

(** The noise of the layer before the cast is float32, so that without the
    cast the product with a float16 factor is refused. *)
Lemma Sampling_uncast_mismatch (z_log_var : TTensor) (shape : nat * nat) (g : Rng.t) :
  dtype z_log_var = float16 ->
  tf.mul (Sampling.a z_log_var) (fst (tf.random_normal shape g)) = None.
Proof.
  intros Hd. destruct shape as [b d]. unfold tf.mul; simpl. rewrite Hd. reflexivity.
Qed.

(** C7: on a mean and a log-variance of one shape [(B, D)] and one dtype the
    sampling layer returns [mean + exp(0.5 * log_variance) * epsilon] entry
    by entry, where [epsilon] holds the next [B * D] values of the generator
    in the shape [(B, D)] of the mean, whatever [B] is; the generator is
    advanced past them, so the next call draws other values; and [epsilon]
    has been cast to the dtype of the factor [exp(0.5 * log_variance)]. *)
Theorem Sampling_call_reparameterization
        (z_mean z_log_var : TTensor) (g : Rng.t) (B D : nat) :
  dtype z_mean = dtype z_log_var ->
  has_shape B D (values z_mean) ->
  has_shape B D (values z_log_var) ->
  let epsilon := fst (Sampling.epsilon (z_mean, z_log_var) g) in
  dtype epsilon = dtype (Sampling.a z_log_var) /\
  has_shape B D (values epsilon) /\
  (forall i j, (i < B)%nat -> (j < D)%nat ->
     Spec.entry (values epsilon) i j = g (i * D + j)%nat) /\
  exists z,
    Sampling.call (z_mean, z_log_var) g = Some (z, Rng.advance (B * D) g) /\
    dtype z = dtype z_mean /\
    has_shape B D (values z) /\
    forall i j, (i < B)%nat -> (j < D)%nat ->
      Spec.entry (values z) i j =
      Spec.entry (values z_mean) i j
      + exp (0.5 * Spec.entry (values z_log_var) i j)
        * Spec.entry (values epsilon) i j.
Proof.
  intros Hd Hm Hv epsilon.
  assert (Heps : values epsilon =
                 Rng.take_mat (shape0 (values z_mean)) (shape1 (values z_mean)) g)
    by reflexivity.
  assert (Hshape : has_shape B D (values epsilon)).
  { rewrite Heps. unfold shape0. rewrite (has_shape_length Hm).
    destruct B as [|B'].
    - split; [reflexivity|]. simpl. constructor.
    - rewrite (has_shape_shape1_pos Hm) by lia. apply take_mat_shape. }
  assert (Hentry : forall i j, (i < B)%nat -> (j < D)%nat ->
                     Spec.entry (values epsilon) i j = g (i * D + j)%nat).
  { intros i j Hi Hj. rewrite Heps. unfold shape0.
    rewrite (has_shape_length Hm), (has_shape_shape1_pos Hm) by lia.
    apply take_mat_entry; assumption. }
  split; [reflexivity|]. split; [exact Hshape|]. split; [exact Hentry|].
  eexists. split.
  - rewrite (Sampling_call_value _ _ g Hd), (has_shape_shape1 Hm). reflexivity.
  - simpl. rewrite <- Heps. split; [reflexivity|].
    assert (Ha : has_shape B D (mat_map exp (mat_map (Rmult 0.5) (values z_log_var))))
      by (apply mat_map_shape, mat_map_shape, Hv).
    split.
    + apply mat_zip_shape; [exact Hm|]. apply mat_zip_shape; assumption.
    + intros i j Hi Hj.
      rewrite (mat_zip_entry Rplus Hm (mat_zip_shape Rmult Ha Hshape) Hi Hj).
      rewrite (mat_zip_entry Rmult Ha Hshape Hi Hj).
      rewrite (mat_map_entry exp (mat_map_shape (Rmult 0.5) Hv) Hi Hj).
      rewrite (mat_map_entry (Rmult 0.5) Hv Hi Hj).
      reflexivity.
Qed.

(** The sampling layer on a float16 mean and log-variance of shape [(1, 2)]. *)
Lemma Sampling_call_reparameterization_witness :
  dtype Toy.zm16 = dtype Toy.zl16 /\
  has_shape 1 2 (values Toy.zm16) /\
  has_shape 1 2 (values Toy.zl16) /\
  exists z,
    Sampling.call (Toy.zm16, Toy.zl16) Toy.g1 = Some (z, Rng.advance (1 * 2) Toy.g1) /\
    dtype z = float16.
Proof.
  assert (H1 : has_shape 1 2 (values Toy.zm16)) by (split; [reflexivity | repeat constructor]).
  assert (H2 : has_shape 1 2 (values Toy.zl16)) by (split; [reflexivity | repeat constructor]).
  split; [reflexivity|]. split; [exact H1|]. split; [exact H2|].
  destruct (Sampling_call_reparameterization Toy.zm16 Toy.zl16 Toy.g1 eq_refl H1 H2)
    as (_ & _ & _ & z & Hz & Hd & _).
  exists z. split; [exact Hz | exact Hd].
Defined.

(** ** What the encoder and the two steps return *)

Section Steps.

Variable K : Keras.
Variable c : Config.t.

Lemma encoder_value (data : Batch) (world : World K) :
  encoder c data world =
  Some ((z_mean_dense c (self world) data,
         z_mean_dense c (self world) data,
         latent_of c (self world) data (noise_of c (self world) data (rng world))),
        mkWorld (self world) (rng_after c (self world) data (rng world))).
Proof.
  unfold encoder, bind, get_self, with_rng, ret.
  rewrite Sampling_call_value by reflexivity.
  reflexivity.
Qed.

Lemma train_step_tape_value (data : Batch) (world : World K) :
  train_step_tape c data world =
  Some (losses_of c (self world) data (noise_of c (self world) data (rng world)),
        mkWorld (self world) (rng_after c (self world) data (rng world))).
Proof.
  unfold train_step_tape, bind. rewrite encoder_value. reflexivity.
Qed.

Lemma test_step_value (data : Batch) (world : World K) :
  test_step c data world =
  Some (logs_of (losses_of c (self world) data
                           (noise_of c (self world) data (rng world))),
        mkWorld (self world) (rng_after c (self world) data (rng world))).
Proof.
  unfold test_step, bind. rewrite encoder_value. reflexivity.
Qed.

Lemma train_step_value (data : Batch) (world : World K) (opt : Optimizer K) :
  optimizer (self world) = Some opt ->
  train_step c data world =
  Some (logs_of (metric_results
                   (trained c (self world) opt data world
                      (losses_of c (self world) data
                                 (noise_of c (self world) data (rng world))))),
        mkWorld (trained c (self world) opt data world
                   (losses_of c (self world) data
                              (noise_of c (self world) data (rng world))))
                (rng_after c (self world) data (rng world))).
Proof.
  intros Hopt. unfold train_step, bind. rewrite train_step_tape_value.
  unfold losses_of, get_self. simpl. rewrite Hopt. unfold trained.
  destruct (apply_gradients K opt _ _) as [opt' variables'].
  reflexivity.
Qed.


End Steps.

(** The mean of a scalar is the scalar. *)
Lemma reduce_mean_scalar (x : R) : reduce_mean (scalar x) = x.
Proof. unfold reduce_mean, scalar, reduce_sum. simpl. field. Qed.

(** ** Activations *)

Lemma leaky_relu_nonneg (x : R) : 0 <= x -> leaky_relu x = x.
Proof. intros Hx. unfold leaky_relu. apply Rmax_right; lra. Qed.

Lemma relu_nonneg (x : R) : 0 <= x -> relu x = x.
Proof. intros Hx. unfold relu. apply Rmax_right; lra. Qed.

Lemma sigmoid_0 : sigmoid 0 = 1 / 2.
Proof. unfold sigmoid. rewrite Ropp_0, exp_0. lra. Qed.

Lemma sigmoid_gt_half (x : R) : 0 < x -> 1 / 2 < sigmoid x.
Proof.
  intros Hx. unfold sigmoid.
  assert (H0 : 0 < exp (- x)) by apply exp_pos.
  assert (H1 : exp (- x) < 1).
  { rewrite <- exp_0. apply exp_increasing. lra. }
  apply Rmult_lt_reg_r with (1 + exp (- x)); [lra|].
  replace (1 / (1 + exp (- x)) * (1 + exp (- x))) with 1 by (field; lra).
  lra.
Qed.

(** ** The small instance, evaluated *)

Lemma toy_z_mean : z_mean_dense Toy.c Toy.model Toy.data0 = mkT float32 [[0]].
Proof.
  unfold z_mean_dense, encoder_features. cbn.
  rewrite leaky_relu_nonneg by lra. reflexivity.
Qed.

Lemma toy_z_logvar :
  z_logvar_dense Toy.c Toy.model Toy.data0 = mkT float32 [[1 + 0]].
Proof.
  unfold z_logvar_dense, encoder_features. cbn.
  rewrite leaky_relu_nonneg by lra. reflexivity.
Qed.

Lemma toy_noise (g : Rng.t) :
  noise_of Toy.c Toy.model Toy.data0 g = [[g 0%nat]].
Proof. unfold noise_of. rewrite toy_z_mean. reflexivity. Qed.

Lemma toy_reconstruction (g : Rng.t) :
  0 <= g 0%nat ->
  reconstruction_of Toy.c Toy.model Toy.data0
                    (noise_of Toy.c Toy.model Toy.data0 g)
  = [[[[sigmoid (exp (0.5 * (1 + 0)) * g 0%nat)]]]].
Proof.
  intros Hg. rewrite toy_noise.
  unfold reconstruction_of, latent_of. rewrite toy_z_mean, toy_z_logvar.
  assert (Hz : 0 <= 0 + exp (0.5 * (1 + 0)) * g 0%nat).
  { pose proof (exp_pos (0.5 * (1 + 0))). nra. }
  unfold decoder. cbn. rewrite !Pos2Nat.inj_1. cbn.
  rewrite (relu_nonneg Hz), (leaky_relu_nonneg Hz), Rplus_0_l. reflexivity.
Qed.

Lemma toy_perception_loss (g : Rng.t) :
  0 <= g 0%nat ->
  perception_loss_of Toy.c Toy.model Toy.data0
                     (noise_of Toy.c Toy.model Toy.data0 g)
  = 5 * (sigmoid (exp (0.5 * (1 + 0)) * g 0%nat)) ^ 2.
Proof.
  intros Hg. unfold perception_loss_of. rewrite (toy_reconstruction _ Hg).
  unfold perception_loss. cbn. rewrite !reduce_mean_scalar. lra.
Qed.

(** ** The encoder's outputs (C1) *)

(** C1: for every model, configuration, batch and state of the generator the
    encoder returns the triple (mean, mean, sample): its first and its second
    output are the one tensor of the dense layer [z_mean], and the sample is
    what the sampling layer returns on the outputs of [z_mean] and of
    [z_logvar].  A step that reads the second output as the log-variance
    reads the mean: the [kl_loss] of the evaluation step is computed from the
    mean in both places.  The second output is not the output of [z_logvar]:
    in the small instance the two differ. *)
Theorem encoder_returns_mean_twice :
  (forall (K : Keras) (c : Config.t) (data : Batch) (world : World K),
     exists z g' logs world',
       Sampling.call (z_mean_dense c (self world) data,
                      z_logvar_dense c (self world) data) (rng world)
       = Some (z, g') /\
       encoder c data world
       = Some ((z_mean_dense c (self world) data,
                z_mean_dense c (self world) data, z),
               mkWorld (self world) g') /\
       test_step c data world = Some (logs, world') /\
       lookup "kl_loss" logs
       = Some (kl_loss (values (z_mean_dense c (self world) data))
                       (values (z_mean_dense c (self world) data)))) /\
  z_logvar_dense Toy.c Toy.model Toy.data0
  <> z_mean_dense Toy.c Toy.model Toy.data0.
Proof.
  split.
  - intros K c data world. do 4 eexists. split; [|split; [|split]].
    + apply Sampling_call_value. reflexivity.
    + apply encoder_value.
    + apply test_step_value.
    + reflexivity.
  - rewrite toy_z_mean, toy_z_logvar. intros H.
    injection H as H. lra.
Qed.

(** ** The evaluation step (C8, C4) *)

(** C8: the evaluation step leaves the model as it found it, trainable
    variables, optimizer and the four metric accumulators included (only the
    generator has moved on); the dictionary it returns holds the four loss
    values of this call, and they are the same whatever the accumulators
    hold, which stay untouched as well. *)
Theorem test_step_mutates_no_state
        (K : Keras) (c : Config.t) (data : Batch) (world : World K) :
  exists g',
    test_step c data world
    = Some (logs_of (losses_of c (self world) data
                               (noise_of c (self world) data (rng world))),
            mkWorld (self world) g') /\
    forall m1 m2 m3 m4 : Mean.t,
      test_step c data (mkWorld (with_metrics m1 m2 m3 m4 (self world))
                                (rng world))
      = Some (logs_of (losses_of c (self world) data
                                 (noise_of c (self world) data (rng world))),
              mkWorld (with_metrics m1 m2 m3 m4 (self world)) g').
Proof.
  exists (rng_after c (self world) data (rng world)). split.
  - apply test_step_value.
  - intros m1 m2 m3 m4. rewrite test_step_value. reflexivity.
Qed.

(** C4, as stated, fails: in the small instance two evaluation steps on one
    batch and one model, the generator returning [0] in the first run and [1]
    in the second, return different perceptual losses. *)
Lemma test_step_twice_differs :
  ~ (forall logs1 logs2 w1 w2,
       test_step Toy.c Toy.data0 (mkWorld Toy.model Toy.g0) = Some (logs1, w1) ->
       test_step Toy.c Toy.data0 (mkWorld Toy.model Toy.g1) = Some (logs2, w2) ->
       lookup "reconstruction_loss" logs1 = lookup "reconstruction_loss" logs2 /\
       lookup "kl_loss" logs1 = lookup "kl_loss" logs2 /\
       lookup "perception_loss" logs1 = lookup "perception_loss" logs2).
Proof.
  intros H.
  destruct (H _ _ _ _ (test_step_value Toy.c Toy.data0 (mkWorld Toy.model Toy.g0))
              (test_step_value Toy.c Toy.data0 (mkWorld Toy.model Toy.g1)))
    as (_ & _ & Hp).
  simpl in Hp. injection Hp as Hp.
  rewrite !toy_perception_loss in Hp by (unfold Toy.g0, Toy.g1; lra).
  unfold Toy.g0, Toy.g1 in Hp.
  rewrite Rmult_0_r, sigmoid_0, Rmult_1_r in Hp.
  pose proof (sigmoid_gt_half (exp_pos (0.5 * (1 + 0)))) as Hs.
  nra.
Qed.

(** C4, amended: two evaluation steps on one batch with one model return the
    same [kl_loss] whatever the sampling layer draws in either run, and the
    same dictionary, [reconstruction_loss] and [perception_loss] included,
    when the two runs draw the same noise. *)
Theorem test_step_twice
        (K : Keras) (c : Config.t) (data : Batch) (s : Model K) (g1 g2 : Rng.t) :
  exists logs1 logs2 w1 w2,
    test_step c data (mkWorld s g1) = Some (logs1, w1) /\
    test_step c data (mkWorld s g2) = Some (logs2, w2) /\
    lookup "kl_loss" logs1 = Some (kl_loss_of c s data) /\
    lookup "kl_loss" logs2 = Some (kl_loss_of c s data) /\
    (noise_of c s data g1 = noise_of c s data g2 -> logs1 = logs2).
Proof.
  do 4 eexists. rewrite !test_step_value. simpl.
  split; [reflexivity|]. split; [reflexivity|].
  split; [reflexivity|]. split; [reflexivity|].
  intros Hn. rewrite Hn. reflexivity.
Qed.

(** ** The running means (C9) *)

Lemma last_as_nth (A : Type) (l : list A) (d : A) :
  last l d = nth (length l - 1) l d.
Proof.
  induction l as [|x [|y l] IH]; try reflexivity.
  change (last (x :: y :: l) d) with (last (y :: l) d).
  rewrite IH. cbn [length].
  replace (S (S (length l)) - 1)%nat with (S (S (length l) - 1)) by lia.
  reflexivity.
Qed.

Lemma updates_cons (v : R) (vs : list R) (m : Mean.t) :
  Mean.updates (v :: vs) m = Mean.updates vs (Mean.update_state v m).
Proof. reflexivity. Qed.

Lemma updates_total_count (vs : list R) (m : Mean.t) :
  Mean.total (Mean.updates vs m) = Mean.total m + reduce_sum vs /\
  Mean.count (Mean.updates vs m) = (Mean.count m + length vs)%nat.
Proof.
  revert m; induction vs as [|v vs IH]; intros m.
  - simpl. split; [lra | lia].
  - rewrite updates_cons. destruct (IH (Mean.update_state v m)) as [Ht Hc].
    rewrite Ht, Hc. simpl. split; [lra | lia].
Qed.

(** From reset, the result of the metric is the unweighted mean of the
    values it was given. *)
Lemma result_updates_new (vs : list R) :
  vs <> [] -> Mean.result (Mean.updates vs Mean.new) = reduce_mean vs.
Proof.
  intros Hne. destruct (updates_total_count vs Mean.new) as [Ht Hc].
  unfold Mean.result. rewrite Hc, Ht. simpl.
  destruct vs as [|v vs]; [congruence|].
  unfold reduce_mean. cbn [length]. rewrite Rplus_0_l. reflexivity.
Qed.

Section Training.

Variable K : Keras.
Variable c : Config.t.

Lemma trained_trackers (s : Model K) (opt : Optimizer K) (data : Batch)
      (world : World K) (v : R * R * R * R) :
  total_loss_tracker (trained c s opt data world v)
  = Mean.update_state (v_total v) (total_loss_tracker s) /\
  reconstruction_loss_tracker (trained c s opt data world v)
  = Mean.update_state (v_reconstruction v) (reconstruction_loss_tracker s) /\
  kl_loss_tracker (trained c s opt data world v)
  = Mean.update_state (v_kl v) (kl_loss_tracker s) /\
  perception_loss_tracker (trained c s opt data world v)
  = Mean.update_state (v_perception v) (perception_loss_tracker s) /\
  optimizer (trained c s opt data world v) <> None.
Proof.
  destruct v as [[[t r] k] p]. unfold trained.
  destruct (apply_gradients K opt _ _) as [opt' variables']. simpl.
  repeat split; congruence.
Qed.

Lemma train_trace_cons (data : Batch) (rest : list Batch) (world : World K)
      (opt : Optimizer K) :
  optimizer (self world) = Some opt ->
  train_trace c (data :: rest) world
  = step_losses c data world
    :: train_trace c rest
         (mkWorld (trained c (self world) opt data world (step_losses c data world))
                  (rng_after c (self world) data (rng world))).
Proof.
  intros Hopt. cbn [train_trace].
  rewrite train_step_tape_value, (train_step_value c data world Hopt).
  reflexivity.
Qed.

Lemma train_steps_metrics (batches : list Batch) :
  forall world : World K,
    optimizer (self world) <> None ->
    exists logss world',
      train_steps c batches world = Some (logss, world') /\
      length logss = length batches /\
      length (train_trace c batches world) = length batches /\
      trackers_after (self world) (self world') (train_trace c batches world) /\
      forall n, (n < length batches)%nat ->
        nth n logss []
        = logs_of (metrics_after (self world)
                     (firstn (S n) (train_trace c batches world))).
Proof.
  induction batches as [|data rest IH]; intros world Hopt.
  - exists [], world. simpl. repeat split; auto. intros n Hn; lia.
  - destruct (optimizer (self world)) as [opt|] eqn:Hopt'; [|congruence].
    set (v := step_losses c data world).
    set (world1 := mkWorld (trained c (self world) opt data world v)
                           (rng_after c (self world) data (rng world))).
    destruct (trained_trackers (self world) opt data world v)
      as (Ht & Hr & Hk & Hp & Hopt1).
    destruct (IH world1 Hopt1)
      as (logss & world' & Hrun & Hlen & Hlen' & Hafter & Hnth).
    exists (logs_of (metric_results (self world1)) :: logss), world'.
    rewrite (train_trace_cons data rest world Hopt'). fold v world1.
    split; [|split; [|split; [|split]]].
    + cbn [train_steps]. unfold bind at 1.
      rewrite (train_step_value c data world Hopt'). fold v world1.
      unfold bind at 1. unfold world1, v, step_losses in Hrun.
      rewrite Hrun. reflexivity.
    + simpl. rewrite Hlen. reflexivity.
    + simpl. rewrite Hlen'. reflexivity.
    + destruct Hafter as (Ha & Hb & Hc & Hd).
      unfold trackers_after. cbn [map]. rewrite !updates_cons.
      rewrite Ha, Hb, Hc, Hd. cbn [self world1].
      rewrite Ht, Hr, Hk, Hp. repeat split; reflexivity.
    + intros [|n] Hn.
      * cbn [nth firstn]. unfold metrics_after, metric_results.
        cbn [map self world1]. rewrite Ht, Hr, Hk, Hp. reflexivity.
      * cbn [nth]. rewrite Hnth by (simpl in Hn; lia).
        rewrite firstn_cons. unfold metrics_after. cbn [map].
        rewrite !updates_cons. cbn [self world1].
        rewrite Ht, Hr, Hk, Hp. reflexivity.
Qed.

End Training.

(** C9: consecutive train steps, started with a compiled model whose four
    accumulators have just been reset, all return; every step gives each
    accumulator the value of its loss in that step, and the dictionary that
    the [N]-th step returns holds, under each of the four keys, the
    arithmetic average of the [N] values of that loss in the steps so far. *)
Theorem train_steps_running_mean
        (K : Keras) (c : Config.t) (batches : list Batch) (world : World K) :
  batches <> [] ->
  optimizer (self world) <> None ->
  self world = reset_metrics (self world) ->
  exists logss world',
    train_steps c batches world = Some (logss, world') /\
    length logss = length batches /\
    length (train_trace c batches world) = length batches /\
    trackers_after (reset_metrics (self world)) (self world')
                   (train_trace c batches world) /\
    (forall N, (0 < N <= length batches)%nat ->
       nth (N - 1) logss []
       = logs_of (averages (firstn N (train_trace c batches world)))) /\
    last logss [] = logs_of (averages (train_trace c batches world)).
Proof.
  intros Hne Hopt Hreset.
  destruct (train_steps_metrics c batches world Hopt)
    as (logss & world' & Hrun & Hlen & Hlen' & Hafter & Hnth).
  assert (Hprefix : forall N, (0 < N <= length batches)%nat ->
            nth (N - 1) logss []
            = logs_of (averages (firstn N (train_trace c batches world)))).
  { intros N HN. rewrite Hnth by lia.
    replace (S (N - 1)) with N by lia.
    assert (Hfn : firstn N (train_trace c batches world) <> []).
    { intros H. apply (f_equal (@length _)) in H.
      rewrite length_firstn, Hlen' in H. simpl in H. lia. }
    unfold metrics_after, averages. rewrite Hreset. cbn.
    rewrite !result_updates_new
      by (intros H; apply map_eq_nil in H; contradiction).
    reflexivity. }
  exists logss, world'. rewrite <- Hreset.
  repeat (split; [assumption|]).
  rewrite last_as_nth, Hlen.
  rewrite <- (firstn_all (train_trace c batches world)) at 1.
  rewrite Hlen'. apply Hprefix.
  destruct batches; [congruence | simpl; lia].
Qed.

(** Two train steps of the small instance from reset accumulators. *)
Lemma train_steps_running_mean_witness :
  [Toy.data0; Toy.data0] <> [] /\
  optimizer (self (mkWorld Toy.model Toy.g0)) <> None /\
  self (mkWorld Toy.model Toy.g0) = reset_metrics (self (mkWorld Toy.model Toy.g0)) /\
  exists logss world',
    train_steps Toy.c [Toy.data0; Toy.data0] (mkWorld Toy.model Toy.g0)
    = Some (logss, world') /\
    last logss []
    = logs_of (averages (train_trace Toy.c [Toy.data0; Toy.data0]
                                     (mkWorld Toy.model Toy.g0))).
Proof.
  assert (H1 : [Toy.data0; Toy.data0] <> []) by discriminate.
  assert (H2 : optimizer (self (mkWorld Toy.model Toy.g0)) <> None)
    by discriminate.
  assert (H3 : self (mkWorld Toy.model Toy.g0)
               = reset_metrics (self (mkWorld Toy.model Toy.g0)))
    by reflexivity.
  split; [exact H1|]. split; [exact H2|]. split; [exact H3|].
  destruct (@train_steps_running_mean Toy.K Toy.c _ _ H1 H2 H3)
    as (logss & world' & Hrun & _ & _ & _ & _ & Hlast).
  exists logss, world'. split; assumption.
Defined.

(** ** Sums *)

Lemma sum_n_ext (n : nat) (f g : nat -> R) :
  (forall i, (i < n)%nat -> f i = g i) -> Spec.sum_n n f = Spec.sum_n n g.
Proof.
  induction n as [|n IH]; intros H; simpl; [reflexivity|].
  rewrite IH, H by (intros; try apply H; lia). reflexivity.
Qed.

Lemma sum_n_shift (n : nat) (f : nat -> R) :
  Spec.sum_n (S n) f = f 0%nat + Spec.sum_n n (fun i => f (S i)).
Proof.
  induction n as [|n IH].
  - simpl. lra.
  - change (Spec.sum_n (S (S n)) f) with (Spec.sum_n (S n) f + f (S n)).
    rewrite IH. simpl. lra.
Qed.

Lemma reduce_sum_sum_n (l : list R) :
  reduce_sum l = Spec.sum_n (length l) (fun i => nth i l 0).
Proof.
  induction l as [|x l IH]; [reflexivity|].
  cbn [length]. rewrite sum_n_shift. simpl. rewrite IH. reflexivity.
Qed.

Lemma reduce_sum_nonneg (l : list R) :
  Forall (fun x => 0 <= x) l -> 0 <= reduce_sum l.
Proof.
  induction 1 as [|x l Hx _ IH]; simpl; lra.
Qed.

Lemma reduce_sum_zero_iff (l : list R) :
  Forall (fun x => 0 <= x) l ->
  (reduce_sum l = 0 <-> Forall (fun x => x = 0) l).
Proof.
  induction 1 as [|x l Hx Hl IH]; simpl.
  - split; auto.
  - pose proof (reduce_sum_nonneg Hl) as Hs. split.
    + intros H. constructor; [lra|]. apply IH. lra.
    + intros H. inversion H as [|? ? H0 Hl0]; subst.
      apply IH in Hl0. lra.
Qed.


Lemma reduce_mean_zero_iff (l : list R) :
  l <> [] -> (reduce_mean l = 0 <-> reduce_sum l = 0).
Proof.
  intros Hne. unfold reduce_mean.
  assert (Hn : 0 < INR (length l)).
  { apply lt_0_INR. destruct l; [congruence | simpl; lia]. }
  split; intros H.
  - apply Rmult_eq_compat_r with (r := INR (length l)) in H.
    unfold Rdiv in H. rewrite Rmult_assoc, Rinv_l, Rmult_1_r, Rmult_0_l in H by lra.
    exact H.
  - rewrite H. unfold Rdiv. apply Rmult_0_l.
Qed.

Lemma Forall_equiv (A : Type) (P Q : A -> Prop) (l : list A) :
  (forall x, P x <-> Q x) -> (Forall P l <-> Forall Q l).
Proof.
  intros H. split; intros HF; eapply Forall_impl; try exact HF;
    intros x Hx; apply H, Hx.
Qed.

(** ** The KL loss (C6, C10) *)

Lemma zip_with_diag (A B C D : Type) (f : B -> C -> D) (g : A -> B) (h : A -> C)
      (l : list A) :
  zip_with f (map g l) (map h l) = map (fun x => f (g x) (h x)) l.
Proof. induction l as [|x l IH]; simpl; [|rewrite IH]; reflexivity. Qed.

Lemma mat_zip_diag (f : R -> R -> R) (g h : R -> R) (m : Mat) :
  mat_zip f (mat_map g m) (mat_map h m) = mat_map (fun x => f (g x) (h x)) m.
Proof.
  unfold mat_zip, mat_map. rewrite zip_with_diag.
  apply map_ext. intros row. apply zip_with_diag.
Qed.

Lemma mat_map_map (f g : R -> R) (m : Mat) :
  mat_map f (mat_map g m) = mat_map (fun x => f (g x)) m.
Proof.
  unfold mat_map. rewrite map_map. apply map_ext. intros row. apply map_map.
Qed.

Lemma mat_map_ext (f g : R -> R) (m : Mat) :
  (forall x, f x = g x) -> mat_map f m = mat_map g m.
Proof.
  intros H. unfold mat_map. apply map_ext. intros row. apply map_ext, H.
Qed.

(** With the mean in both slots every entry contributes [kl_elem]. *)
Lemma kl_loss_same (m : Mat) :
  kl_loss m m = reduce_mean (map (fun row => reduce_sum (map Spec.kl_elem row)) m).
Proof.
  unfold kl_loss, reduce_sum_axis1.
  rewrite !mat_zip_diag, mat_map_map.
  rewrite (mat_map_ext _ Spec.kl_elem)
    by (intros x; unfold Spec.kl_elem; simpl; ring).
  unfold mat_map. rewrite map_map. reflexivity.
Qed.

Lemma kl_elem_bound (m : R) :
  1 + m - m ^ 2 - exp m <= 0 /\ (1 + m - m ^ 2 - exp m = 0 <-> m = 0).
Proof.
  pose proof (exp_ineq1_le m) as He. split; [nra|]. split.
  - intros H. nra.
  - intros ->. rewrite exp_0. lra.
Qed.

Lemma kl_elem_nonneg (m : R) : 0 <= Spec.kl_elem m.
Proof. unfold Spec.kl_elem. destruct (kl_elem_bound m) as [H _]. lra. Qed.

Lemma kl_elem_zero_iff (m : R) : Spec.kl_elem m = 0 <-> m = 0.
Proof.
  unfold Spec.kl_elem. destruct (kl_elem_bound m) as [_ H].
  rewrite <- H. split; intros; lra.
Qed.

Lemma kl_rows_nonneg (m : Mat) :
  Forall (fun x => 0 <= x) (map (fun row => reduce_sum (map Spec.kl_elem row)) m).
Proof.
  apply Forall_map, Forall_forall. intros row _.
  apply reduce_sum_nonneg, Forall_map, Forall_forall. intros x _.
  apply kl_elem_nonneg.
Qed.


Lemma kl_loss_same_zero_iff (m : Mat) :
  m <> [] -> (kl_loss m m = 0 <-> Forall (Forall (fun x => x = 0)) m).
Proof.
  intros Hne. rewrite kl_loss_same.
  rewrite reduce_mean_zero_iff
    by (intros H; apply map_eq_nil in H; contradiction).
  rewrite (reduce_sum_zero_iff (kl_rows_nonneg m)).
  rewrite Forall_map. apply Forall_equiv. intros row.
  rewrite reduce_sum_zero_iff
    by (apply Forall_map, Forall_forall; intros x _; apply kl_elem_nonneg).
  rewrite Forall_map. apply Forall_equiv. intros x. apply kl_elem_zero_iff.
Qed.


Lemma mean_result_update_new (v : R) :
  Mean.result (Mean.update_state v Mean.new) = v.
Proof.
  unfold Mean.result, Mean.update_state, Mean.new. simpl. field.
Qed.




Lemma reduce_mean_rows (B D : nat) (m : Mat) :
  has_shape B D m ->
  reduce_mean (reduce_sum_axis1 m)
  = Spec.sum_n B (fun b => Spec.sum_n D (fun d => Spec.entry m b d)) / INR B.
Proof.
  intros Hm. unfold reduce_mean, reduce_sum_axis1.
  rewrite reduce_sum_sum_n, length_map, (has_shape_length Hm).
  f_equal. apply sum_n_ext. intros b Hb.
  rewrite (nth_indep _ 0 (reduce_sum []))
    by (rewrite length_map, (has_shape_length Hm); exact Hb).
  rewrite map_nth, reduce_sum_sum_n, (has_shape_row Hm Hb). reflexivity.
Qed.


Lemma zeros_all_zero (B D : nat) :
  Forall (Forall (fun x => x = 0)) (Spec.zeros B D).
Proof.
  unfold Spec.zeros. apply Forall_forall. intros r Hr.
  apply repeat_spec in Hr. subst r.
  apply Forall_forall. intros x Hx. apply repeat_spec in Hx. exact Hx.
Qed.

(** C6: on a mean and a log-variance of shape [(B, D)], [B] positive, the
    KL loss of the code is [-0.5 * (1 + logvar - mean^2 - exp(logvar))]
    summed over the [D] latent dimensions of each example and averaged over
    the [B] examples; it is exactly [0] on the all-zero mean and the all-zero
    log-variance; and both steps compute it from the first and the second
    output of the encoder. *)
Theorem kl_loss_closed_form (B D : nat) (z_mean z_log_var : Mat) :
  (0 < B)%nat ->
  has_shape B D z_mean ->
  has_shape B D z_log_var ->
  kl_loss z_mean z_log_var = Spec.kl_closed_form B D z_mean z_log_var /\
  kl_loss (Spec.zeros B D) (Spec.zeros B D) = 0 /\
  forall (K : Keras) (c : Config.t) (data : Batch) (world : World K),
  exists mean logvar z w1 logs v w2,
    encoder c data world = Some ((mean, logvar, z), w1) /\
    test_step c data world = Some (logs, w2) /\
    lookup "kl_loss" logs = Some (kl_loss (values mean) (values logvar)) /\
    train_step_tape c data world = Some (v, w2) /\
    v_kl v = kl_loss (values mean) (values logvar).
Proof.
  intros HB Hm Hv. split; [|split].
  - unfold kl_loss, Spec.kl_closed_form.
    assert (H1 : has_shape B D (mat_map (Rplus 1) z_log_var))
      by apply mat_map_shape, Hv.
    assert (H2 : has_shape B D (mat_map (fun x => x * x) z_mean))
      by apply mat_map_shape, Hm.
    assert (H3 : has_shape B D (mat_map exp z_log_var))
      by apply mat_map_shape, Hv.
    pose proof (mat_zip_shape Rminus H1 H2) as H4.
    pose proof (mat_zip_shape Rminus H4 H3) as H5.
    rewrite (reduce_mean_rows (mat_map_shape (Rmult (-0.5)) H5)).
    f_equal. apply sum_n_ext. intros b Hb. apply sum_n_ext. intros d Hd.
    rewrite (mat_map_entry _ H5 Hb Hd), (mat_zip_entry _ H4 H3 Hb Hd),
      (mat_zip_entry _ H1 H2 Hb Hd), (mat_map_entry _ Hv Hb Hd),
      (mat_map_entry _ Hm Hb Hd), (mat_map_entry _ Hv Hb Hd).
    simpl. ring.
  - apply kl_loss_same_zero_iff.
    + unfold Spec.zeros. destruct B; [lia | discriminate].
    + apply zeros_all_zero.
  - intros K c data world. do 7 eexists.
    rewrite encoder_value, test_step_value, train_step_tape_value.
    repeat split; reflexivity.
Qed.

(** The KL loss on a mean and a log-variance of shape [(2, 1)]. *)
Lemma kl_loss_closed_form_witness :
  (0 < 2)%nat /\
  has_shape 2 1 [[1]; [2]] /\
  has_shape 2 1 [[3]; [4]] /\
  kl_loss [[1]; [2]] [[3]; [4]] = Spec.kl_closed_form 2 1 [[1]; [2]] [[3]; [4]].
Proof.
  assert (H0 : (0 < 2)%nat) by lia.
  assert (H1 : has_shape 2 1 [[1]; [2]])
    by (split; [reflexivity | repeat constructor]).
  assert (H2 : has_shape 2 1 [[3]; [4]])
    by (split; [reflexivity | repeat constructor]).
  split; [exact H0|]. split; [exact H1|]. split; [exact H2|].
  exact (proj1 (kl_loss_closed_form H0 H1 H2)).
Defined.

(** ** The perceptual loss (C3) *)

Lemma zip_with_nil_r (A B C : Type) (f : A -> B -> C) (xs : list A) :
  zip_with f xs [] = [].
Proof. destruct xs; reflexivity. Qed.

(** The squared differences of one pair of feature maps, all added. *)
Lemma feature_loss_sum (fd fr : Mat) :
  reduce_mean (scalar (reduce_sum_all
     (mat_map (fun x => x ^ 2) (mat_zip Rminus fd fr))))
  = reduce_sum (zip_with (fun x y =>
                  reduce_sum (zip_with (fun a b => (a - b) ^ 2) x y)) fd fr).
Proof.
  rewrite reduce_mean_scalar. unfold reduce_sum_all, mat_map, mat_zip.
  f_equal. rewrite map_map.
  revert fr; induction fd as [|x fd IH]; intros [|y fr]; try reflexivity.
  cbn [zip_with map]. rewrite IH. f_equal. f_equal.
  clear. revert y; induction x as [|a x IH]; intros [|b y]; try reflexivity.
  cbn [zip_with map]. rewrite IH. reflexivity.
Qed.

Lemma map_seq_cons (B : Type) (F : nat -> B) (n : nat) :
  map F (seq 0 (S n)) = F 0%nat :: map (fun i => F (S i)) (seq 0 n).
Proof. cbn [seq map]. rewrite <- seq_shift, map_map. reflexivity. Qed.

(** The perceptual loss of the code adds the squared differences of the
    whole batch at every scale; nothing is divided by the batch size. *)
Lemma perception_loss_is_batch_sum (fmd fmr : list Batch) :
  length fmd = length fmr ->
  perception_loss fmd fmr = Spec.perceptual_batch_sum fmd fmr.
Proof.
  unfold perception_loss, Spec.perceptual_batch_sum. intros Hlen. f_equal.
  revert fmr Hlen; induction fmd as [|fd fmd IH]; intros [|fr fmr] Hlen;
    try discriminate.
  - reflexivity.
  - cbn [length]. rewrite map_seq_cons. cbn [nth zip_with].
    rewrite feature_loss_sum, <- IH by (injection Hlen; auto).
    reflexivity.
Qed.

(** On feature maps of [B] examples the sum over the batch is [B] times the
    average over the batch. *)
Lemma perceptual_batch_sum_mean (B : nat) (fmd fmr : list Batch) :
  (0 < B)%nat ->
  Forall (fun fd => length fd = B) fmd ->
  Forall (fun fr => length fr = B) fmr ->
  Spec.perceptual_batch_sum fmd fmr
  = INR B * Spec.perceptual_batch_mean fmd fmr.
Proof.
  intros HB Hd. unfold Spec.perceptual_batch_sum, Spec.perceptual_batch_mean.
  revert fmr; induction Hd as [|fd fmd Hfd _ IH]; intros fmr Hr.
  - simpl. lra.
  - destruct Hr as [|fr fmr Hfr Hr]; [simpl; lra|].
    cbn [zip_with add_n fold_right]. fold (add_n).
    unfold add_n in IH. rewrite (IH fmr Hr).
    set (T := fold_right Rplus 0 _).
    set (L := zip_with _ (Flatten fd) (Flatten fr)).
    assert (HL : length L = B).
    { unfold L, Flatten. rewrite zip_with_length, !length_map. lia. }
    assert (HB' : INR B <> 0) by (apply not_0_INR; lia).
    unfold reduce_mean. rewrite HL. field. exact HB'.
Qed.

Lemma vgg_model_length (K : Keras) (x : Batch) : length (vgg_model K x) = 5%nat.
Proof. reflexivity. Qed.

Lemma toy_z_mean2 : z_mean_dense Toy.c Toy.model Toy.data2 = mkT float32 [[0]; [0]].
Proof.
  unfold z_mean_dense, encoder_features. cbn.
  rewrite leaky_relu_nonneg by lra. reflexivity.
Qed.

Lemma toy_z_logvar2 :
  z_logvar_dense Toy.c Toy.model Toy.data2 = mkT float32 [[1 + 0]; [1 + 0]].
Proof.
  unfold z_logvar_dense, encoder_features. cbn.
  rewrite leaky_relu_nonneg by lra. reflexivity.
Qed.

Lemma toy_reconstruction2 :
  reconstruction_of Toy.c Toy.model Toy.data2
                    (noise_of Toy.c Toy.model Toy.data2 Toy.g0)
  = [[[[1 / 2]]]; [[[1 / 2]]]].
Proof.
  unfold noise_of, reconstruction_of, latent_of.
  rewrite toy_z_mean2, toy_z_logvar2.
  unfold decoder, Toy.g0. cbn. rewrite !Pos2Nat.inj_1. cbn.
  rewrite Rmult_0_r, Rplus_0_r.
  rewrite (relu_nonneg (Rle_refl 0)), (leaky_relu_nonneg (Rle_refl 0)), sigmoid_0.
  reflexivity.
Qed.

(** C3, at a batch of two examples: the evaluation step of the small
    instance returns the perceptual loss [5/2], every squared difference of
    the two examples added at each of the five scales, where the average over
    the batch of the per-example sums, added over the scales, is [5/4]; the
    train step computes the same value. *)
Theorem perception_loss_not_batch_averaged :
  exists logs world' v,
    test_step Toy.c Toy.data2 (mkWorld Toy.model Toy.g0) = Some (logs, world') /\
    train_step_tape Toy.c Toy.data2 (mkWorld Toy.model Toy.g0) = Some (v, world') /\
    lookup "perception_loss" logs = Some (5 / 2) /\
    v_perception v = 5 / 2 /\
    Spec.perceptual_batch_mean
      (vgg_model Toy.K Toy.data2)
      (vgg_model Toy.K (reconstruction_of Toy.c Toy.model Toy.data2
                          (noise_of Toy.c Toy.model Toy.data2 Toy.g0)))
    = 5 / 4.
Proof.
  do 3 eexists. rewrite test_step_value, train_step_tape_value.
  split; [reflexivity|]. split; [reflexivity|].
  assert (Hp : perception_loss_of Toy.c Toy.model Toy.data2
                 (noise_of Toy.c Toy.model Toy.data2 Toy.g0) = 5 / 2).
  { unfold perception_loss_of. rewrite toy_reconstruction2.
    unfold perception_loss. cbn. rewrite !reduce_mean_scalar. lra. }
  cbn [self rng losses_of logs_of lookup String.eqb Ascii.eqb Bool.eqb v_perception].
  rewrite Hp. split; [reflexivity|]. split; [reflexivity|].
  rewrite toy_reconstruction2. unfold Spec.perceptual_batch_mean, reduce_mean.
  cbn. lra.
Qed.

(** ** The constructor and the total loss (C2) *)

Lemma init_fixed_config (K : Keras) (gamma : R) (variables : Weights K) :
  __init__ K Spec.fixed_config gamma variables
  = Some (@mkModel K 8%Z [32; 32; 1]%Z (gamma * 1.0 * 8 / 1024) variables None
                  Mean.new Mean.new Mean.new Mean.new).
Proof. reflexivity. Qed.


(** C2, at the failing input: under the configuration of the construction
    test and [gamma = 100] the constructor stores the normalized beta
    [100 * 1.0 * 8 / 1024 = 0.78125], yet the total loss of the losses
    [(0, 1, 0)] is [1], the KL term unscaled, where the formula with beta
    folded in gives [0.78125]; for every model and all losses the total loss
    is [0.5 * reconstruction_loss + 0.5 * perception_loss + kl_loss]. *)
Theorem total_loss_ignores_beta :
  (forall (K : Keras) (s : Model K) (r k p : R),
     _total_loss_fn s r k p = 0.5 * r + 0.5 * p + k) /\
  exists s : Model Toy.K,
    __init__ Toy.K Spec.fixed_config 100 0 = Some s /\
    b_norm s = Spec.beta_normalized 100 Spec.fixed_config /\
    b_norm s = 0.78125 /\
    _total_loss_fn s 0 1 0 = 1 /\
    Spec.total_loss_with_beta (b_norm s) 0 1 0 = 0.78125.
Proof.
  split; [intros; reflexivity|].
  eexists. rewrite init_fixed_config. split; [reflexivity|].
  cbn [b_norm]. unfold Spec.beta_normalized, Spec.total_loss_with_beta, _total_loss_fn.
  cbn [Spec.fixed_config Config.b_norm Config.latent_dim Config.input_shape fold_right].
  change (32 * (32 * (1 * 1)))%Z with 1024%Z.
  repeat split; lra.
Qed.

(** ** The signs of the losses (C5) *)

Lemma Forall_zip_with (A B C : Type) (f : A -> B -> C)
      (P : A -> Prop) (Q : C -> Prop) (xs : list A) (ys : list B) :
  (forall x y, P x -> Q (f x y)) ->
  Forall P xs -> Forall Q (zip_with f xs ys).
Proof.
  intros H HP. revert ys. induction HP as [|x xs Hx _ IH]; intros [|y ys];
    simpl; constructor; auto.
Qed.






Lemma reduce_sum_all_nonneg (m : Mat) :
  Forall (Forall (fun x => 0 <= x)) m -> 0 <= reduce_sum_all m.
Proof.
  intros H. unfold reduce_sum_all. apply reduce_sum_nonneg, Forall_map.
  eapply Forall_impl; [|exact H]. intros row. apply reduce_sum_nonneg.
Qed.

Lemma perception_loss_nonneg (fmd fmr : list Batch) :
  0 <= perception_loss fmd fmr.
Proof.
  unfold perception_loss, add_n. apply reduce_sum_nonneg, Forall_map, Forall_forall.
  intros i _. rewrite reduce_mean_scalar.
  apply reduce_sum_all_nonneg. unfold mat_map.
  apply Forall_map, Forall_forall. intros row _.
  apply Forall_map, Forall_forall. intros x _. apply pow2_ge_0.
Qed.










(** * Further properties of the code *)

(** ** The constructor *)



(** ** More on the sampling layer *)


(** The entries of a sample. *)
Lemma sample_entry (B D : nat) (m lv eps : Mat) (i j : nat) :
  has_shape B D m -> has_shape B D lv -> has_shape B D eps ->
  (i < B)%nat -> (j < D)%nat ->
  Spec.entry (mat_zip Rplus m
                (mat_zip Rmult (mat_map exp (mat_map (Rmult 0.5) lv)) eps)) i j
  = Spec.entry m i j + exp (0.5 * Spec.entry lv i j) * Spec.entry eps i j.
Proof.
  intros Hm Hv He Hi Hj.
  assert (Ha : has_shape B D (mat_map exp (mat_map (Rmult 0.5) lv)))
    by (apply mat_map_shape, mat_map_shape, Hv).
  rewrite (mat_zip_entry Rplus Hm (mat_zip_shape Rmult Ha He) Hi Hj).
  rewrite (mat_zip_entry Rmult Ha He Hi Hj).
  rewrite (mat_map_entry exp (mat_map_shape (Rmult 0.5) Hv) Hi Hj).
  rewrite (mat_map_entry (Rmult 0.5) Hv Hi Hj).
  reflexivity.
Qed.

Lemma noise_shape (B D : nat) (m : Mat) (g : Rng.t) :
  has_shape B D m -> has_shape B D (Rng.take_mat (shape0 m) (shape1 m) g).
Proof.
  intros Hm. unfold shape0. rewrite (has_shape_length Hm).
  destruct B as [|B'].
  - split; [reflexivity|]. simpl. constructor.
  - rewrite (has_shape_shape1_pos Hm) by lia. apply take_mat_shape.
Qed.

Lemma noise_entry (B D : nat) (m : Mat) (g : Rng.t) (i j : nat) :
  has_shape B D m -> (i < B)%nat -> (j < D)%nat ->
  Spec.entry (Rng.take_mat (shape0 m) (shape1 m) g) i j = g (i * D + j)%nat.
Proof.
  intros Hm Hi Hj. unfold shape0.
  rewrite (has_shape_length Hm), (has_shape_shape1_pos Hm) by lia.
  apply take_mat_entry; assumption.
Qed.

(** X3: two consecutive calls of the sampling layer on the same mean and
    log-variance of shape [(B, D)] both return; the first sample uses the
    draws [0 .. B*D - 1] of the generator and the second the draws
    [B*D .. 2*B*D - 1], so that no draw is used twice, and the generator ends
    [2 * B * D] draws further. *)
Theorem Sampling_consecutive_calls
        (z_mean z_log_var : TTensor) (g : Rng.t) (B D : nat) :
  dtype z_mean = dtype z_log_var ->
  has_shape B D (values z_mean) ->
  has_shape B D (values z_log_var) ->
  exists z1 g1 z2 g2,
    Sampling.call (z_mean, z_log_var) g = Some (z1, g1) /\
    Sampling.call (z_mean, z_log_var) g1 = Some (z2, g2) /\
    (forall k, g2 k = g (k + 2 * (B * D))%nat) /\
    forall i j, (i < B)%nat -> (j < D)%nat ->
      Spec.entry (values z1) i j
      = Spec.entry (values z_mean) i j
        + exp (0.5 * Spec.entry (values z_log_var) i j) * g (i * D + j)%nat /\
      Spec.entry (values z2) i j
      = Spec.entry (values z_mean) i j
        + exp (0.5 * Spec.entry (values z_log_var) i j)
          * g (B * D + (i * D + j))%nat.
Proof.
  intros Hd Hm Hv. do 4 eexists.
  rewrite !(Sampling_call_value _ _ _ Hd), (has_shape_shape1 Hm).
  split; [reflexivity|]. split; [reflexivity|]. split.
  - intros k. unfold Rng.advance. f_equal. lia.
  - intros i j Hi Hj. cbn [values]. split.
    + rewrite (sample_entry Hm Hv (noise_shape g Hm) Hi Hj).
      rewrite (noise_entry g Hm Hi Hj). reflexivity.
    + rewrite (sample_entry Hm Hv (noise_shape _ Hm) Hi Hj).
      rewrite (noise_entry _ Hm Hi Hj). unfold Rng.advance.
      do 3 f_equal. lia.
Qed.

(** The sampling layer twice on a float16 mean and log-variance of shape
    [(1, 2)]. *)
Lemma Sampling_consecutive_calls_witness :
  dtype Toy.zm16 = dtype Toy.zl16 /\
  has_shape 1 2 (values Toy.zm16) /\
  has_shape 1 2 (values Toy.zl16) /\
  exists z1 g1 z2 g2,
    Sampling.call (Toy.zm16, Toy.zl16) Toy.g1 = Some (z1, g1) /\
    Sampling.call (Toy.zm16, Toy.zl16) g1 = Some (z2, g2).
Proof.
  assert (H1 : has_shape 1 2 (values Toy.zm16))
    by (split; [reflexivity | repeat constructor]).
  assert (H2 : has_shape 1 2 (values Toy.zl16))
    by (split; [reflexivity | repeat constructor]).
  split; [reflexivity|]. split; [exact H1|]. split; [exact H2|].
  destruct (@Sampling_consecutive_calls Toy.zm16 Toy.zl16 Toy.g1 1 2
              eq_refl H1 H2)
    as (z1 & g1 & z2 & g2 & Hc1 & Hc2 & _).
  exists z1, g1, z2, g2. split; assumption.
Defined.





(** ** The decoder and [call] *)





(** ** The KL loss on any mean and log-variance *)








(** ** The perceptual loss: sign, symmetry and zero *)

Lemma zip_with_sym (A B : Type) (f g : A -> A -> B) (xs ys : list A) :
  (forall x y, f x y = g y x) -> zip_with f xs ys = zip_with g ys xs.
Proof.
  intros H. revert ys; induction xs as [|x xs IH]; intros [|y ys];
    simpl; try reflexivity.
  rewrite H, IH. reflexivity.
Qed.

Lemma zip_with_map (A B C : Type) (p : A -> B) (h : B -> B -> C)
      (xs ys : list A) :
  zip_with (fun a b => h (p a) (p b)) xs ys = zip_with h (map p xs) (map p ys).
Proof.
  revert ys; induction xs as [|x xs IH]; intros [|y ys]; simpl;
    try reflexivity.
  rewrite IH. reflexivity.
Qed.

Lemma zip_sum_nonneg (A : Type) (f : A -> A -> R) (xs ys : list A) :
  (forall x y, 0 <= f x y) -> 0 <= reduce_sum (zip_with f xs ys).
Proof.
  intros H. apply reduce_sum_nonneg.
  apply Forall_zip_with with (P := fun _ => True).
  - intros x y _. apply H.
  - apply Forall_forall. intros; exact I.
Qed.

(** A sum of distances over two lists of one shape is zero exactly when the
    lists are equal. *)
Lemma zip_sum_zero_iff (A : Type) (f : A -> A -> R) (Rel : A -> A -> Prop)
      (xs ys : list A) :
  (forall x y, 0 <= f x y) ->
  (forall x y, Rel x y -> (f x y = 0 <-> x = y)) ->
  Forall2 Rel xs ys ->
  (reduce_sum (zip_with f xs ys) = 0 <-> xs = ys).
Proof.
  intros Hpos Hzero HR. induction HR as [|x y xs ys Hxy HR IH].
  - simpl. split; reflexivity.
  - cbn [zip_with reduce_sum fold_right].
    fold (reduce_sum (zip_with f xs ys)).
    pose proof (Hpos x y) as H1.
    pose proof (zip_sum_nonneg f xs ys Hpos) as H2.
    split.
    + intros H. f_equal.
      * apply (Hzero x y Hxy). lra.
      * apply IH. lra.
    + intros H. injection H as Hx Hxs.
      apply (Hzero x y Hxy) in Hx. apply IH in Hxs. lra.
Qed.

Lemma same_length_Forall2 (A : Type) (xs ys : list A) :
  length xs = length ys -> Forall2 (fun _ _ => True) xs ys.
Proof.
  revert ys; induction xs as [|x xs IH]; intros [|y ys] H;
    try discriminate; constructor; auto.
Qed.

Lemma sq_dist_nonneg (x y : list R) :
  0 <= reduce_sum (zip_with (fun a b => (a - b) ^ 2) x y).
Proof. apply zip_sum_nonneg. intros a b. apply pow2_ge_0. Qed.

Lemma sq_dist_zero_iff (x y : list R) :
  length x = length y ->
  (reduce_sum (zip_with (fun a b => (a - b) ^ 2) x y) = 0 <-> x = y).
Proof.
  intros H. apply zip_sum_zero_iff with (Rel := fun _ _ => True).
  - intros a b. apply pow2_ge_0.
  - intros a b _. split; intros Hab; [nra | subst; ring].
  - apply same_length_Forall2, H.
Qed.

Lemma mat_dist_nonneg (a b : Mat) :
  0 <= reduce_sum
         (zip_with (fun x y =>
                      reduce_sum (zip_with (fun a b => (a - b) ^ 2) x y)) a b).
Proof. apply zip_sum_nonneg. exact sq_dist_nonneg. Qed.

Lemma mat_dist_zero_iff (a b : Mat) :
  same_shape a b ->
  (reduce_sum
     (zip_with (fun x y =>
                  reduce_sum (zip_with (fun a b => (a - b) ^ 2) x y)) a b) = 0
   <-> a = b).
Proof.
  intros H. apply zip_sum_zero_iff
    with (Rel := fun x y : list R => length x = length y).
  - exact sq_dist_nonneg.
  - exact sq_dist_zero_iff.
  - exact H.
Qed.

Lemma Forall2_length_eq (A B : Type) (Rel : A -> B -> Prop)
      (xs : list A) (ys : list B) :
  Forall2 Rel xs ys -> length xs = length ys.
Proof. induction 1; simpl; congruence. Qed.

(** The perceptual loss as a sum of distances between flattened maps. *)
Lemma perception_loss_as_distance (fmd fmr : list Batch) :
  length fmd = length fmr ->
  perception_loss fmd fmr
  = reduce_sum
      (zip_with (fun a b =>
                   reduce_sum
                     (zip_with (fun x y =>
                        reduce_sum (zip_with (fun a b => (a - b) ^ 2) x y))
                        a b))
                (map Flatten fmd) (map Flatten fmr)).
Proof.
  intros H. rewrite (perception_loss_is_batch_sum _ _ H).
  unfold Spec.perceptual_batch_sum, add_n.
  fold (reduce_sum (zip_with
     (fun fd fr : Batch =>
        reduce_sum
          (zip_with (fun x y =>
             reduce_sum (zip_with (fun a b => (a - b) ^ 2) x y))
             (Flatten fd) (Flatten fr))) fmd fmr)).
  rewrite <- zip_with_map. reflexivity.
Qed.

(** X8: for any two batches the perceptual loss between their VGG16
    feature maps is not negative, does not depend on the order of the two
    batches, and is [0] when the two batches are the same. *)
Theorem perception_loss_sign_and_symmetry (K : Keras) (a b : Batch) :
  0 <= perception_loss (vgg_model K a) (vgg_model K b) /\
  perception_loss (vgg_model K a) (vgg_model K b)
  = perception_loss (vgg_model K b) (vgg_model K a) /\
  perception_loss (vgg_model K a) (vgg_model K a) = 0.
Proof.
  split; [apply perception_loss_nonneg|]. split.
  - rewrite !perception_loss_as_distance by reflexivity. f_equal.
    apply zip_with_sym. intros x y. f_equal.
    apply zip_with_sym. intros u v. f_equal.
    apply zip_with_sym. intros p q. ring.
  - rewrite perception_loss_as_distance by reflexivity.
    apply zip_sum_zero_iff with (Rel := @eq Mat).
    + exact mat_dist_nonneg.
    + intros x y ->. apply mat_dist_zero_iff.
      clear. induction y; constructor; auto.
    + clear. induction (map Flatten (vgg_model K a)); constructor; auto.
    + reflexivity.
Qed.

(** X9: when the flattened feature maps of the two sides have pairwise the
    same shape, the perceptual loss is [0] exactly when they are equal at
    every scale. *)
Theorem perception_loss_zero_iff (fmd fmr : list Batch) :
  Forall2 same_shape (map Flatten fmd) (map Flatten fmr) ->
  (perception_loss fmd fmr = 0 <-> map Flatten fmd = map Flatten fmr).
Proof.
  intros H.
  assert (Hlen : length fmd = length fmr).
  { apply Forall2_length_eq in H. rewrite !length_map in H. exact H. }
  rewrite (perception_loss_as_distance _ _ Hlen).
  apply zip_sum_zero_iff with (Rel := same_shape).
  - exact mat_dist_nonneg.
  - exact mat_dist_zero_iff.
  - exact H.
Qed.

(** One scale, two one-pixel examples on either side. *)
Lemma perception_loss_zero_iff_witness :
  Forall2 same_shape (map Flatten [Toy.data2])
          (map Flatten [[[[[1]]]; [[[1]]]]]) /\
  (perception_loss [Toy.data2] [[[[[1]]]; [[[1]]]]] = 0
   <-> map Flatten [Toy.data2] = map Flatten [[[[[1]]]; [[[1]]]]]).
Proof.
  assert (H : Forall2 same_shape (map Flatten [Toy.data2])
                      (map Flatten [[[[[1]]]; [[[1]]]]]))
    by (repeat constructor).
  split; [exact H|].
  exact (@perception_loss_zero_iff [Toy.data2] [[[[[1]]]; [[[1]]]]] H).
Defined.

(** ** Train steps: what they report and what they keep *)

Lemma trained_frame (K : Keras) (c : Config.t) (s : Model K)
      (opt : Optimizer K) (data : Batch) (world : World K)
      (v : R * R * R * R) :
  code_dim_size (trained c s opt data world v) = code_dim_size s /\
  target_image_dims (trained c s opt data world v) = target_image_dims s /\
  b_norm (trained c s opt data world v) = b_norm s.
Proof.
  destruct v as [[[t r] k] p]. unfold trained.
  destruct (apply_gradients K opt _ _) as [opt' variables']. simpl.
  repeat split.
Qed.

(** X10: a train step of a compiled model returns; its dictionary holds,
    in the order of the property [metrics], the results of the four metrics
    of the model it leaves; each metric has counted one more value; the
    latent dimension, the input shape and the normalized beta are unchanged,
    the optimizer is still attached, and the generator has moved by as much
    as in an evaluation step. *)
Theorem train_step_reports_metrics
        (K : Keras) (c : Config.t) (data : Batch) (world : World K) :
  optimizer (self world) <> None ->
  exists logs world' logs_eval world_eval,
    train_step c data world = Some (logs, world') /\
    test_step c data world = Some (logs_eval, world_eval) /\
    rng world' = rng world_eval /\
    keys logs = ["loss"; "reconstruction_loss"; "kl_loss"; "perception_loss"] /\
    map snd logs = map Mean.result (metrics (self world')) /\
    map Mean.count (metrics (self world'))
    = map (fun m => S (Mean.count m)) (metrics (self world)) /\
    code_dim_size (self world') = code_dim_size (self world) /\
    target_image_dims (self world') = target_image_dims (self world) /\
    b_norm (self world') = b_norm (self world) /\
    optimizer (self world') <> None.
Proof.
  intros Hopt.
  destruct (optimizer (self world)) as [opt|] eqn:Hopt'; [|congruence].
  do 4 eexists. rewrite (train_step_value c data world Hopt'), test_step_value.
  split; [reflexivity|]. split; [reflexivity|]. split; [reflexivity|].
  cbn [self rng].
  destruct (trained_trackers c (self world) opt data world (step_losses c data world))
    as (Ht & Hr & Hk & Hp & Ho).
  destruct (trained_frame c (self world) opt data world (step_losses c data world))
    as (F1 & F2 & F3).
  fold (step_losses c data world).
  split; [reflexivity|]. split; [reflexivity|].
  split.
  { unfold metrics. rewrite Ht, Hr, Hk, Hp. reflexivity. }
  auto.
Qed.

(** One train step of the small instance. *)
Lemma train_step_reports_metrics_witness :
  optimizer (self (mkWorld Toy.model Toy.g0)) <> None /\
  exists logs world',
    train_step Toy.c Toy.data0 (mkWorld Toy.model Toy.g0) = Some (logs, world') /\
    map snd logs = map Mean.result (metrics (self world')).
Proof.
  assert (H : optimizer (self (mkWorld Toy.model Toy.g0)) <> None)
    by discriminate.
  split; [exact H|].
  destruct (@train_step_reports_metrics Toy.K Toy.c Toy.data0
              (mkWorld Toy.model Toy.g0) H)
    as (logs & world' & _ & _ & Hstep & _ & _ & _ & Hres & _).
  exists logs, world'. split; assumption.
Defined.

(** X11: the first train step after a reset of the metrics returns the same
    dictionary as an evaluation step on the same batch in the same state:
    the running means of one value are the values of that step. *)
Theorem first_train_step_reports_eval_losses
        (K : Keras) (c : Config.t) (data : Batch) (world : World K) :
  optimizer (self world) <> None ->
  self world = reset_metrics (self world) ->
  exists logs world' world_eval,
    train_step c data world = Some (logs, world') /\
    test_step c data world = Some (logs, world_eval).
Proof.
  intros Hopt Hreset.
  destruct (optimizer (self world)) as [opt|] eqn:Hopt'; [|congruence].
  set (v := step_losses c data world).
  destruct (trained_trackers c (self world) opt data world v)
    as (Ht & Hr & Hk & Hp & _).
  assert (Hnew : total_loss_tracker (self world) = Mean.new /\
                 reconstruction_loss_tracker (self world) = Mean.new /\
                 kl_loss_tracker (self world) = Mean.new /\
                 perception_loss_tracker (self world) = Mean.new)
    by (rewrite Hreset; repeat split).
  destruct Hnew as (N1 & N2 & N3 & N4).
  exists (logs_of v),
    (mkWorld (trained c (self world) opt data world v)
             (rng_after c (self world) data (rng world))),
    (mkWorld (self world) (rng_after c (self world) data (rng world))).
  rewrite (train_step_value c data world Hopt'), test_step_value.
  split; [|reflexivity].
  change (losses_of c (self world) data
            (noise_of c (self world) data (rng world))) with v.
  f_equal. f_equal.
  unfold metric_results. rewrite Ht, Hr, Hk, Hp, N1, N2, N3, N4.
  rewrite !mean_result_update_new.
  destruct v as [[[t r] k] p]. reflexivity.
Qed.

Lemma first_train_step_reports_eval_losses_witness :
  optimizer (self (mkWorld Toy.model Toy.g0)) <> None /\
  self (mkWorld Toy.model Toy.g0) = reset_metrics (self (mkWorld Toy.model Toy.g0)) /\
  exists logs world' world_eval,
    train_step Toy.c Toy.data0 (mkWorld Toy.model Toy.g0) = Some (logs, world') /\
    test_step Toy.c Toy.data0 (mkWorld Toy.model Toy.g0) = Some (logs, world_eval).
Proof.
  assert (H1 : optimizer (self (mkWorld Toy.model Toy.g0)) <> None)
    by discriminate.
  assert (H2 : self (mkWorld Toy.model Toy.g0)
               = reset_metrics (self (mkWorld Toy.model Toy.g0)))
    by reflexivity.
  split; [exact H1|]. split; [exact H2|].
  exact (@first_train_step_reports_eval_losses Toy.K Toy.c Toy.data0
           (mkWorld Toy.model Toy.g0) H1 H2).
Defined.

(** ** Sequences of train steps *)




(** ** The reported total loss *)

Lemma step_losses_combined (K : Keras) (c : Config.t) (data : Batch)
      (world : World K) :
  combined (step_losses c data world).
Proof. reflexivity. Qed.

Lemma train_trace_combined (K : Keras) (c : Config.t) (batches : list Batch) :
  forall world : World K,
    optimizer (self world) <> None ->
    Forall combined (train_trace c batches world).
Proof.
  induction batches as [|data rest IH]; intros world Hopt; [constructor|].
  destruct (optimizer (self world)) as [opt|] eqn:Hopt'; [|congruence].
  rewrite (train_trace_cons c data rest world Hopt'). constructor.
  - apply step_losses_combined.
  - apply IH. cbn [self].
    apply (trained_trackers c (self world) opt data world
             (step_losses c data world)).
Qed.

Lemma averages_combined (vs : list (R * R * R * R)) :
  Forall combined vs -> combined (averages vs).
Proof.
  intros H. unfold combined, averages.
  cbn [v_total v_reconstruction v_kl v_perception].
  unfold reduce_mean. rewrite !length_map.
  assert (Hsum : reduce_sum (map v_total vs)
                 = 0.5 * reduce_sum (map v_reconstruction vs)
                   + 0.5 * reduce_sum (map v_perception vs)
                   + reduce_sum (map v_kl vs)).
  { induction H as [|v vs Hv _ IH]; [simpl; lra|].
    unfold combined in Hv. destruct v as [[[t r] k] p].
    cbn in Hv. cbn [map reduce_sum fold_right] in *.
    cbn [v_total v_reconstruction v_kl v_perception].
    unfold reduce_sum in IH. lra. }
  rewrite Hsum. unfold Rdiv. ring.
Qed.

Lemma Forall_firstn (A : Type) (P : A -> Prop) (n : nat) (l : list A) :
  Forall P l -> Forall P (firstn n l).
Proof.
  intros H. revert n; induction H as [|x l Hx _ IH]; intros [|n]; simpl;
    constructor; auto.
Qed.

(** X13: in every dictionary that consecutive train steps return, started
    from reset metrics, the value under [loss] is
    [0.5 * reconstruction_loss + 0.5 * perception_loss + kl_loss] of the
    values under the three other keys of the same dictionary: the running
    mean of the total is the total of the running means.  The dictionary of
    an evaluation step is related in the same way. *)
Theorem reported_loss_is_combination
        (K : Keras) (c : Config.t) (batches : list Batch) (world : World K) :
  optimizer (self world) <> None ->
  self world = reset_metrics (self world) ->
  (exists logss world',
     train_steps c batches world = Some (logss, world') /\
     Forall (fun logs =>
               exists r k p,
                 logs = logs_of (0.5 * r + 0.5 * p + k, r, k, p)) logss) /\
  forall data : Batch,
  exists logs world' r k p,
    test_step c data world = Some (logs, world') /\
    logs = logs_of (0.5 * r + 0.5 * p + k, r, k, p).
Proof.
  intros Hopt Hreset. split.
  - destruct (train_steps_metrics c batches world Hopt)
      as (logss & world' & Hrun & Hlen & Hlen' & _ & Hnth).
    exists logss, world'. split; [exact Hrun|].
    apply Forall_forall. intros logs Hin.
    destruct (In_nth _ _ [] Hin) as [n [Hn Hlogs]].
    assert (Hn' : (n < length batches)%nat) by (rewrite <- Hlen; exact Hn).
    rewrite Hnth in Hlogs by exact Hn'. subst logs.
    set (vs := firstn (S n) (train_trace c batches world)).
    assert (Hvs : vs <> []).
    { intros H. apply (f_equal (@length _)) in H. unfold vs in H.
      rewrite length_firstn, Hlen' in H. cbn [length] in H. lia. }
    assert (Havg : metrics_after (self world) vs = averages vs).
    { unfold metrics_after, averages. rewrite Hreset. cbn.
      rewrite !result_updates_new
        by (intros H; apply map_eq_nil in H; contradiction).
      reflexivity. }
    rewrite Havg.
    assert (Hc : combined (averages vs)).
    { apply averages_combined, Forall_firstn, train_trace_combined, Hopt. }
    destruct (averages vs) as [[[t r] k] p].
    unfold combined in Hc. cbn in Hc. exists r, k, p. rewrite Hc. reflexivity.
  - intros data. do 5 eexists. rewrite test_step_value.
    split; reflexivity.
Qed.

(** Two train steps of the small instance from reset metrics. *)
Lemma reported_loss_is_combination_witness :
  optimizer (self (mkWorld Toy.model Toy.g0)) <> None /\
  self (mkWorld Toy.model Toy.g0) = reset_metrics (self (mkWorld Toy.model Toy.g0)) /\
  exists logss world',
    train_steps Toy.c [Toy.data0; Toy.data0] (mkWorld Toy.model Toy.g0)
    = Some (logss, world') /\
    Forall (fun logs =>
              exists r k p,
                logs = logs_of (0.5 * r + 0.5 * p + k, r, k, p)) logss.
Proof.
  assert (H1 : optimizer (self (mkWorld Toy.model Toy.g0)) <> None)
    by discriminate.
  assert (H2 : self (mkWorld Toy.model Toy.g0)
               = reset_metrics (self (mkWorld Toy.model Toy.g0)))
    by reflexivity.
  split; [exact H1|]. split; [exact H2|].
  exact (proj1 (@reported_loss_is_combination Toy.K Toy.c
                  [Toy.data0; Toy.data0] (mkWorld Toy.model Toy.g0) H1 H2)).
Defined.

(** ** The shapes of the encoder and of the decoder *)

Lemma conv_same_mul (s m : Z) : (0 < s)%Z -> conv_same s (m * s) = m.
Proof.
  intros Hs. unfold conv_same.
  replace (m * s + s - 1)%Z with ((s - 1) + m * s)%Z by lia.
  rewrite Z.div_add by lia. rewrite Z.div_small by lia. lia.
Qed.

Lemma fold_deconv (A : Type) (s : Z) (l : list A) (x : Z) :
  fold_left (fun n _ => deconv_same s n) l x
  = (x * s ^ Z.of_nat (length l))%Z.
Proof.
  revert x; induction l as [|a l IH]; intros x.
  - simpl. lia.
  - cbn [fold_left length]. rewrite IH. unfold deconv_same.
    rewrite Nat2Z.inj_succ, Z.pow_succ_r by lia. lia.
Qed.

Lemma fold_conv (A : Type) (s : Z) (l : list A) (x : Z) :
  (0 < s)%Z ->
  fold_left (fun n _ => conv_same s n) l (x * s ^ Z.of_nat (length l))%Z = x.
Proof.
  intros Hs. revert x; induction l as [|a l IH]; intros x.
  - simpl. lia.
  - cbn [fold_left length].
    rewrite Nat2Z.inj_succ, Z.pow_succ_r by lia.
    replace (x * (s * s ^ Z.of_nat (length l)))%Z
      with ((x * s ^ Z.of_nat (length l)) * s)%Z by lia.
    rewrite conv_same_mul by exact Hs. apply IH.
Qed.

(** X14: with [n] filters, stride [s] and [padding='same'] the decoder
    returns images of side [last_conv_dim * s^n] with the channels of the
    input, so its output has the shape of the input exactly when the input
    shape is [(last_conv_dim * s^n, last_conv_dim * s^n, channels)]; for
    such an input and a positive stride the encoder's last feature map is
    [last_conv_dim] by [last_conv_dim] with the last filter count as its
    channels, which is what the dense layer and the reshape of the decoder
    start from. *)
Theorem decoder_mirrors_encoder (c : Config.t) :
  let side := (Config.last_conv_dim c
               * Config.strides c ^ Z.of_nat (length (Config.filters c)))%Z in
  (decoder_output_shape c = Config.input_shape c
   <-> exists ch, Config.input_shape c = [side; side; ch]) /\
  ((0 < Config.strides c)%Z ->
   forall ch, Config.input_shape c = [side; side; ch] ->
     encoder_conv_shape c
     = [Config.last_conv_dim c; Config.last_conv_dim c;
        last (Config.filters c) 0%Z]).
Proof.
  intros side. unfold decoder_output_shape, encoder_conv_shape.
  rewrite fold_deconv, length_rev. fold side. split.
  - split.
    + intros H. eexists. symmetry. exact H.
    + intros [ch H]. rewrite H. reflexivity.
  - intros Hs ch H. rewrite H. unfold side.
    rewrite fold_conv by exact Hs. reflexivity.
Qed.

(** ** The reconstruction loss *)



